(** * The QUADPACK callback adapter of scipy/integrate/quadpack.h

    A shallow embedding of the install / evaluate / restore layer that
    lets a one-argument FORTRAN-style callback drive a function of
    several variables, together with the Python-callable and ctypes
    variants of the same save/restore discipline.

    The translation unit is modelled as one record of its static
    variables plus the memory it reaches:

    - [double] is an abstract type [D]: the adapter only copies doubles;
    - [int] is a [Z] inside [INT_MIN .. INT_MAX] (32 bits); signed
      overflow is undefined behaviour and makes the model return [None];
    - [double *] is a block and an offset into a store of arrays;
    - function and object pointers are addresses, [NULL] being [0];
      casts through [void *] are the identity;
    - a callee reached through a function pointer is looked up in a code
      table and is a state transformer that may fail. *)

From Stdlib Require Import ZArith Lia List Reals Lra.
From stdpp Require Import base option list strings gmap.

Local Open Scope Z_scope.

(** ** Machine integers and status codes *)

Definition INT_MAX : Z := 2147483647.
Definition INT_MIN : Z := -2147483648.

(** numpy's status codes ([NPY_FAIL] is 0, [NPY_SUCCEED] is 1). *)
Definition NPY_FAIL : Z := 0.
Definition NPY_SUCCEED : Z := 1.

(** ** Pointers *)

(** Addresses of functions and of Python objects. *)
Definition ptr : Type := N.
Definition NULL : ptr := 0%N.

Definition is_null (p : ptr) : bool := N.eqb p NULL.

(** A [double *]: null, or an offset (counted in doubles) into a block. *)
Inductive dptr : Type :=
  | DNull
  | DPtr (b : N) (ofs : Z).

(** ** Records of the save/restore protocol *)

(** [ZStorage]: the six fields in the order of the struct. *)
Record ZStorage : Type := mkZStorage {
  z_args0 : dptr;
  z_nargs0 : Z;
  z_f0 : ptr;
  z_args1 : dptr;
  z_nargs1 : Z;
  z_f1 : ptr
}.

Record YStorage : Type := mkYStorage {
  y_func0 : ptr;
  y_func1 : ptr
}.

Definition set_z_args0 (v : dptr) (s : ZStorage) : ZStorage :=
  mkZStorage v (z_nargs0 s) (z_f0 s) (z_args1 s) (z_nargs1 s) (z_f1 s).
Definition set_z_nargs0 (v : Z) (s : ZStorage) : ZStorage :=
  mkZStorage (z_args0 s) v (z_f0 s) (z_args1 s) (z_nargs1 s) (z_f1 s).
Definition set_z_f0 (v : ptr) (s : ZStorage) : ZStorage :=
  mkZStorage (z_args0 s) (z_nargs0 s) v (z_args1 s) (z_nargs1 s) (z_f1 s).
Definition set_z_args1 (v : dptr) (s : ZStorage) : ZStorage :=
  mkZStorage (z_args0 s) (z_nargs0 s) (z_f0 s) v (z_nargs1 s) (z_f1 s).
Definition set_z_nargs1 (v : Z) (s : ZStorage) : ZStorage :=
  mkZStorage (z_args0 s) (z_nargs0 s) (z_f0 s) (z_args1 s) v (z_f1 s).
Definition set_z_f1 (v : ptr) (s : ZStorage) : ZStorage :=
  mkZStorage (z_args0 s) (z_nargs0 s) (z_f0 s) (z_args1 s) (z_nargs1 s) v.

Definition set_y_func0 (v : ptr) (s : YStorage) : YStorage :=
  mkYStorage v (y_func1 s).
Definition set_y_func1 (v : ptr) (s : YStorage) : YStorage :=
  mkYStorage (y_func0 s) v.

(** ** The Python runtime

    The CPython C API used by the header is an interface of the
    model: a runtime state [py] and the seven entry points the
    header calls, plus the read of a ctypes function object's buffer
    done by [get_ctypes_function_pointer]. *)
Class PyRuntime (py : Type) : Type := {
  PyTuple_New : Z -> py -> ptr * py;
  Py_INCREF : ptr -> py -> py;
  Py_XDECREF : ptr -> py -> py;
  PyTuple_Check : ptr -> py -> bool;
  PyErr_SetString : ptr -> string -> py -> py;
  PyErr_Occurred : py -> ptr;
  PyErr_Clear : py -> py;
  (** [*((void ** )(obj->b_ptr))]; undefined when [obj] is no live
      ctypes function object. *)
  cfuncptr_target : ptr -> py -> option ptr
}.

(** What the header relies on from the interpreter: what [PyTuple_New]
    returns, when it is not null, is a tuple, and taking a reference
    does not change the type of any object. *)
Class PyRuntimeLaws (py : Type) `{!PyRuntime py} : Prop := {
  PyTuple_New_is_tuple : forall n rt,
    (PyTuple_New n rt).1 <> NULL ->
    PyTuple_Check (PyTuple_New n rt).1 (PyTuple_New n rt).2 = true;
  Py_INCREF_keeps_type : forall o a rt,
    PyTuple_Check o (Py_INCREF a rt) = PyTuple_Check o rt
}.

(** Clearing the error indicator leaves no error pending. *)
Class PyErrLaws (py : Type) `{!PyRuntime py} : Prop := {
  PyErr_Clear_clears : forall rt, PyErr_Occurred (PyErr_Clear rt) = NULL
}.

Section Adapter.

(** The type of C doubles and the contents of a [jmp_buf]. *)
Context {D : Type} {jmp_buf : Type}.

Record QStorage : Type := mkQStorage {
  global0 : ptr;
  global1 : ptr;
  jmp : jmp_buf;
  arg : ptr
}.

Definition set_global0 (v : ptr) (s : QStorage) : QStorage :=
  mkQStorage v (global1 s) (jmp s) (arg s).
Definition set_global1 (v : ptr) (s : QStorage) : QStorage :=
  mkQStorage (global0 s) v (jmp s) (arg s).
Definition set_jmp (v : jmp_buf) (s : QStorage) : QStorage :=
  mkQStorage (global0 s) (global1 s) v (arg s).
Definition set_arg (v : ptr) (s : QStorage) : QStorage :=
  mkQStorage (global0 s) (global1 s) (jmp s) v.

Context {py : Type} `{!PyRuntime py}.

(** ** The static variables and the reachable memory *)

Record state : Type := mkState {
  quadpack_python_function : ptr;
  quadpack_extra_arguments : ptr;
  quadpack_jmpbuf : jmp_buf;
  quadpack_ctypes_function : ptr;
  quadpack_error : ptr;
  globalargs : dptr;
  globalf : ptr;
  globalnargs : Z;
  globalbasef : ptr;
  (** arrays of doubles, by block *)
  mem : gmap N (list D);
  (** the interpreter *)
  pyrt : py
}.

Definition set_quadpack_python_function (v : ptr) (st : state) : state :=
  mkState v (quadpack_extra_arguments st) (quadpack_jmpbuf st)
    (quadpack_ctypes_function st) (quadpack_error st) (globalargs st)
    (globalf st) (globalnargs st) (globalbasef st) (mem st) (pyrt st).

Definition set_quadpack_extra_arguments (v : ptr) (st : state) : state :=
  mkState (quadpack_python_function st) v (quadpack_jmpbuf st)
    (quadpack_ctypes_function st) (quadpack_error st) (globalargs st)
    (globalf st) (globalnargs st) (globalbasef st) (mem st) (pyrt st).

Definition set_quadpack_jmpbuf (v : jmp_buf) (st : state) : state :=
  mkState (quadpack_python_function st) (quadpack_extra_arguments st) v
    (quadpack_ctypes_function st) (quadpack_error st) (globalargs st)
    (globalf st) (globalnargs st) (globalbasef st) (mem st) (pyrt st).

Definition set_quadpack_ctypes_function (v : ptr) (st : state) : state :=
  mkState (quadpack_python_function st) (quadpack_extra_arguments st)
    (quadpack_jmpbuf st) v (quadpack_error st) (globalargs st)
    (globalf st) (globalnargs st) (globalbasef st) (mem st) (pyrt st).

Definition set_globalargs (v : dptr) (st : state) : state :=
  mkState (quadpack_python_function st) (quadpack_extra_arguments st)
    (quadpack_jmpbuf st) (quadpack_ctypes_function st) (quadpack_error st)
    v (globalf st) (globalnargs st) (globalbasef st) (mem st) (pyrt st).

Definition set_globalf (v : ptr) (st : state) : state :=
  mkState (quadpack_python_function st) (quadpack_extra_arguments st)
    (quadpack_jmpbuf st) (quadpack_ctypes_function st) (quadpack_error st)
    (globalargs st) v (globalnargs st) (globalbasef st) (mem st) (pyrt st).

Definition set_globalnargs (v : Z) (st : state) : state :=
  mkState (quadpack_python_function st) (quadpack_extra_arguments st)
    (quadpack_jmpbuf st) (quadpack_ctypes_function st) (quadpack_error st)
    (globalargs st) (globalf st) v (globalbasef st) (mem st) (pyrt st).

Definition set_globalbasef (v : ptr) (st : state) : state :=
  mkState (quadpack_python_function st) (quadpack_extra_arguments st)
    (quadpack_jmpbuf st) (quadpack_ctypes_function st) (quadpack_error st)
    (globalargs st) (globalf st) (globalnargs st) v (mem st) (pyrt st).

Definition set_mem (v : gmap N (list D)) (st : state) : state :=
  mkState (quadpack_python_function st) (quadpack_extra_arguments st)
    (quadpack_jmpbuf st) (quadpack_ctypes_function st) (quadpack_error st)
    (globalargs st) (globalf st) (globalnargs st) (globalbasef st) v (pyrt st).

Definition set_pyrt (v : py) (st : state) : state :=
  mkState (quadpack_python_function st) (quadpack_extra_arguments st)
    (quadpack_jmpbuf st) (quadpack_ctypes_function st) (quadpack_error st)
    (globalargs st) (globalf st) (globalnargs st) (globalbasef st) (mem st) v.

(** The process-wide active multivariate triple. *)
Definition active (st : state) : ptr * Z * dptr :=
  (globalf st, globalnargs st, globalargs st).

(** The process-wide active Python context. *)
Definition active_py (st : state) : ptr * ptr * jmp_buf :=
  (quadpack_python_function st, quadpack_extra_arguments st,
   quadpack_jmpbuf st).

(** ** Memory reads *)

(** [p[i]] for a [double *p]: undefined through a null pointer, a dead
    block or outside the block. *)
Definition load (m : gmap N (list D)) (p : dptr) (i : Z) : option D :=
  match p with
  | DNull => None
  | DPtr b ofs =>
      l ← m !! b;
      if 0 <=? ofs + i then l !! Z.to_nat (ofs + i) else None
  end.

(** The array [a] is what [p] points at: [p[0 .. length a - 1]]. *)
Definition array_at (m : gmap N (list D)) (p : dptr) (a : list D) : Prop :=
  forall i : nat, (i < length a)%nat -> load m p (Z.of_nat i) = a !! i.

(** ** Callees

    What a pointer to doubles gives a callee is the array from the
    pointee onwards, passed as a list; reading past it is undefined
    and is the callee returning [None]. *)
Definition nary_fn : Type := Z -> list D -> state -> option (D * state).
Definition scalar_fn : Type := list D -> state -> option (D * state).

(** The code behind [double ( * )(int, double * )] and
    [double ( * )(double * )] pointers. *)
Context (nary_code : ptr -> option nary_fn).
Context (scalar_code : ptr -> option scalar_fn).

(** ** The Python-callable and ctypes contexts *)

Definition get_ctypes_function_pointer (obj : ptr) (rt : py) : option ptr :=
  cfuncptr_target obj rt.

Definition quad_init_func (store : QStorage) (fun_ : ptr) (arg_ : ptr)
    (st : state) : Z * QStorage * state :=
  let store := set_global0 (quadpack_python_function st) store in
  let store := set_global1 (quadpack_extra_arguments st) store in
  let store := set_jmp (quadpack_jmpbuf st) store in
  let store := set_arg arg_ store in
  let '(no_tuple, store, st) :=
    if is_null (arg store) then
      let '(t, rt) := PyTuple_New 0 (pyrt st) in
      (is_null t, set_arg t store, set_pyrt rt st)
    else
      (* We decrement on restore *)
      (false, store, set_pyrt (Py_INCREF (arg store) (pyrt st)) st) in
  if no_tuple then (NPY_FAIL, store, st)
  else if negb (PyTuple_Check (arg store) (pyrt st)) then
    let st := set_pyrt (PyErr_SetString (quadpack_error st)
                          "Extra Arguments must be in a tuple" (pyrt st)) st in
    let st := set_pyrt (Py_XDECREF (arg store) (pyrt st)) st in
    (NPY_FAIL, store, st)
  else
    let st := set_quadpack_python_function fun_ st in
    let st := set_quadpack_extra_arguments (arg store) st in
    (NPY_SUCCEED, store, st).

(** [ierr] is an [int *]: [None] for a null pointer, else the pointee. *)
Definition quad_restore_func (store : QStorage) (ierr : option Z)
    (st : state) : option Z * state :=
  let st := set_quadpack_python_function (global0 store) st in
  let st := set_quadpack_extra_arguments (global1 store) st in
  let st := set_quadpack_jmpbuf (jmp store) st in
  let st := set_pyrt (Py_XDECREF (arg store) (pyrt st)) st in
  match ierr with
  | Some v =>
      if negb (is_null (PyErr_Occurred (pyrt st))) then
        (* Python error *)
        (Some 80, set_pyrt (PyErr_Clear (pyrt st)) st)
      else (Some v, st)
  | None => (None, st)
  end.

Definition init_ctypes_func (store : QStorage) (fun_ : ptr) (st : state)
    : option (Z * QStorage * state) :=
  let store := set_global0 (quadpack_ctypes_function st) store in
  target ← get_ctypes_function_pointer fun_ (pyrt st);
  let store := set_global1 target store in
  if is_null (global1 store) then Some (NPY_FAIL, store, st)
  else
    let st := set_quadpack_ctypes_function (global1 store) st in
    Some (NPY_SUCCEED, store, st).

Definition restore_ctypes_func (store : QStorage) (st : state) : state :=
  set_quadpack_ctypes_function (global0 store) st.

(** ** The multivariate call context *)

Definition init_c_multivariate (store : ZStorage) (f : ptr) (n : Z)
    (args : dptr) (st : state) : Z * ZStorage * state :=
  (* Store current parameters *)
  let store := set_z_f0 (globalf st) store in
  let store := set_z_nargs0 (globalnargs st) store in
  let store := set_z_args0 (globalargs st) store in
  (* Store new parameters *)
  let store := set_z_f1 f store in
  let store := set_z_nargs1 n store in
  let store := set_z_args1 args store in
  if is_null (z_f1 store) then (NPY_FAIL, store, st)
  else
    (* Set globals *)
    let st := set_globalf (z_f1 store) st in
    let st := set_globalnargs (z_nargs1 store) st in
    let st := set_globalargs (z_args1 store) st in
    (NPY_SUCCEED, store, st).

(** The loop [for (i; i < globalnargs + 1; i++)
    evalArray[i] = globalargs[i-1];] with a bound on its iterations. *)
Fixpoint copy_loop (fuel : nat) (i : Z) (st : state)
    (evalArray : list (option D)) : option (list (option D)) :=
  if i <? globalnargs st + 1 then
    match fuel with
    | O => None
    | S fuel' =>
        v ← load (mem st) (globalargs st) (i - 1);
        copy_loop fuel' (i + 1) st (<[Z.to_nat i := Some v]> evalArray)
    end
  else Some evalArray.

(** The cells of [evalArray] are uninitialised ([None]) until written.
    The variable-length array needs [0 < globalnargs + 1] with the sum
    representable. *)
Definition build_evalArray (x : list D) (st : state) : option (list D) :=
  if (0 <? globalnargs st + 1) && (globalnargs st + 1 <=? INT_MAX) then
    let evalArray := replicate (Z.to_nat (globalnargs st + 1)) None in
    x0 ← head x;
    let evalArray := <[0%nat := Some x0]> evalArray in
    evalArray ← copy_loop (Z.to_nat (globalnargs st)) 1 st evalArray;
    mapM (fun cell => cell) evalArray
  else None.

Definition call_c_multivariate (x : list D) (st : state)
    : option (D * state) :=
  evalArray ← build_evalArray x st;
  if is_null (globalf st) then None
  else
    f ← nary_code (globalf st);
    f (globalnargs st) evalArray st.

Definition restore_c_multivariate (store : ZStorage) (st : state) : state :=
  let st := set_globalf (z_f0 store) st in
  let st := set_globalnargs (z_nargs0 store) st in
  let st := set_globalargs (z_args0 store) st in
  st.

(** ** The single-variable wrapper context *)

Definition funcwrapper_init (store : YStorage) (f : ptr) (st : state)
    : YStorage * state :=
  let store := set_y_func0 (globalbasef st) store in
  let store := set_y_func1 f store in
  let st := set_globalbasef (y_func1 store) st in
  (store, st).

Definition funcwrapper (nargs : Z) (args : list D) (st : state)
    : option (D * state) :=
  if is_null (globalbasef st) then None
  else
    f ← scalar_code (globalbasef st);
    f args st.

Definition funcwrapper_restore (store : YStorage) (st : state) : state :=
  set_globalbasef (y_func0 store) st.


(** ** Regions protected by the multivariate context

    A caller's use of the protocol in proper stack order: a region is a
    sequence of evaluations through [call_c_multivariate] and of nested
    install / region / restore pairs, each pair on a record of its own.
    A pair whose install fails skips its region and still restores. *)
Inductive region : Type :=
  | Stop
  | Evaluate (x : list D) (rest : region)
  | Nested (store : ZStorage) (f : ptr) (n : Z) (args : dptr)
         (body : region) (rest : region).

Fixpoint run (r : region) (st : state) : option state :=
  match r with
  | Stop => Some st
  | Evaluate x rest =>
      '(_, st) ← call_c_multivariate x st;
      run rest st
  | Nested store f n args body rest =>
      let '(status, store, st) := init_c_multivariate store f n args st in
      st ← (if status =? NPY_FAIL then Some st else run body st);
      run rest (restore_c_multivariate store st)
  end.

(** A callee is balanced when it returns with the active triple it was
    entered with, as a callee that itself follows the protocol does. *)
Definition balanced (code : ptr -> option nary_fn) : Prop :=
  forall a g n l st v st',
    code a = Some g -> g n l st = Some (v, st') -> active st' = active st.

(** A callee that reads only the double its argument points at. *)
Definition reads_pointee_only (g : scalar_fn) : Prop :=
  forall l l' st, head l = head l' -> g l st = g l' st.

End Adapter.

Arguments state : clear implicits.
Arguments QStorage : clear implicits.
Arguments nary_fn : clear implicits.
Arguments scalar_fn : clear implicits.
Arguments region : clear implicits.

(** ** The sample integrands of tests/testlib.c

    The arithmetic of [double] and the functions of [math.h] the
    fixtures use, as an interface; [PI] is the constant the file
    defines. *)
Class FloatOps (D : Type) : Type := {
  d_mul : D -> D -> D;
  d_sub : D -> D -> D;
  d_div : D -> D -> D;
  d_neg : D -> D;
  d_cos : D -> D;
  d_sin : D -> D;
  d_exp : D -> D;
  d_log : D -> D;
  PI : D
}.

Section Testlib.

Context {D : Type} `{!FloatOps D}.

(** [cos(args[1]*args[0]-args[2] * sin(args[0]))/PI]; reading an
    element the array does not have is undefined. *)
Definition typical (n : Z) (args : list D) : option D :=
  a0 ← args !! 0%nat;
  a1 ← args !! 1%nat;
  a2 ← args !! 2%nat;
  Some (d_div (d_cos (d_sub (d_mul a1 a0) (d_mul a2 (d_sin a0)))) PI).

Definition indefinite (n : Z) (args : list D) : option D :=
  a0 ← args !! 0%nat;
  Some (d_mul (d_neg (d_exp (d_neg a0))) (d_log a0)).

Definition sin2 (n : Z) (args : list D) : option D :=
  a0 ← args !! 0%nat;
  Some (d_sin a0).

(** A fixture as a callee: it computes from its array and leaves the
    state alone. *)
Definition pure_callee {jmp_buf py : Type} (g : Z -> list D -> option D)
    : nary_fn D jmp_buf py :=
  fun n args st => v ← g n args; Some (v, st).

(** A code table holding the three fixtures. *)
Definition typical_addr : ptr := 1%N.
Definition indefinite_addr : ptr := 2%N.
Definition sin2_addr : ptr := 3%N.

Definition testlib_code {jmp_buf py : Type} (a : ptr)
    : option (nary_fn D jmp_buf py) :=
  if N.eqb a typical_addr then Some (pure_callee typical)
  else if N.eqb a indefinite_addr then Some (pure_callee indefinite)
  else if N.eqb a sin2_addr then Some (pure_callee sin2)
  else None.

End Testlib.

(** Doubles read as real numbers: exact arithmetic, [PI] the value of
    the decimal literal of testlib.c. *)
#[export] Instance real_ops : FloatOps R := {
  d_mul := Rmult;
  d_sub := Rminus;
  d_div := Rdiv;
  d_neg := Ropp;
  d_cos := Rtrigo_def.cos;
  d_sin := Rtrigo_def.sin;
  d_exp := Rtrigo_def.exp;
  d_log := Rpower.ln;
  PI := 3.14159265358979323846264338327950288419716939937510582%R
}.

(** ** A small reference-counting interpreter

    An instance of the runtime interface on which the Python-side
    operations can be run: objects carry a reference count, whether
    they are tuples, and (for ctypes function objects) the pointer
    their buffer holds. *)
Record pyobj : Type := mkPyobj {
  ob_refcnt : Z;
  ob_is_tuple : bool;
  ob_target : ptr
}.

Record interp : Type := mkInterp {
  objects : gmap N pyobj;
  last_addr : N;
  (** allocations that will still succeed *)
  allocs_left : nat;
  err_type : ptr;
  err_message : string
}.

Definition interp_tuple_new (n : Z) (rt : interp) : ptr * interp :=
  match allocs_left rt with
  | O => (NULL, rt)
  | S k =>
      let a := N.succ (last_addr rt) in
      (a, mkInterp (<[a := mkPyobj 1 true NULL]> (objects rt)) a k
            (err_type rt) (err_message rt))
  end.

Definition interp_incref (a : ptr) (rt : interp) : interp :=
  mkInterp
    (alter (fun o => mkPyobj (ob_refcnt o + 1) (ob_is_tuple o) (ob_target o))
       a (objects rt))
    (last_addr rt) (allocs_left rt) (err_type rt) (err_message rt).

Definition interp_xdecref (a : ptr) (rt : interp) : interp :=
  if is_null a then rt
  else
    match objects rt !! a with
    | Some o =>
        let objs :=
          if ob_refcnt o <=? 1 then delete a (objects rt)
          else <[a := mkPyobj (ob_refcnt o - 1) (ob_is_tuple o)
                        (ob_target o)]> (objects rt) in
        mkInterp objs (last_addr rt) (allocs_left rt) (err_type rt)
          (err_message rt)
    | None => rt
    end.

Definition interp_tuple_check (a : ptr) (rt : interp) : bool :=
  match objects rt !! a with
  | Some o => ob_is_tuple o
  | None => false
  end.

Definition interp_err_set (exc : ptr) (msg : string) (rt : interp) : interp :=
  mkInterp (objects rt) (last_addr rt) (allocs_left rt) exc msg.

Definition interp_err_clear (rt : interp) : interp :=
  mkInterp (objects rt) (last_addr rt) (allocs_left rt) NULL EmptyString.

Definition interp_target (a : ptr) (rt : interp) : option ptr :=
  ob_target <$> objects rt !! a.

#[export] Instance interp_runtime : PyRuntime interp := {
  PyTuple_New := interp_tuple_new;
  Py_INCREF := interp_incref;
  Py_XDECREF := interp_xdecref;
  PyTuple_Check := interp_tuple_check;
  PyErr_SetString := interp_err_set;
  PyErr_Occurred := err_type;
  PyErr_Clear := interp_err_clear;
  cfuncptr_target := interp_target
}.

(** ** Concrete states and callees for the examples

    Doubles are reals, a jump buffer is a list of machine words, the
    interpreter is the reference-counting one. *)
Abbreviation xstate := (state R (list Z) interp).

(** What a record holds before an install writes it. *)
Definition junk_record : ZStorage :=
  mkZStorage (DPtr 9 4) 7 77%N (DPtr 9 5) 8 78%N.
Definition junk_qrecord : QStorage (list Z) :=
  mkQStorage 79%N 80%N [1; 2] 81%N.

(** Objects of the interpreter: a tuple at 5, a list at 6, a ctypes
    function object at 7 whose buffer holds a null pointer and one at 8
    whose buffer holds the address 40. *)
Definition sample_interp : interp :=
  mkInterp
    (<[5%N := mkPyobj 1 true NULL]>
       (<[6%N := mkPyobj 1 false NULL]>
          (<[7%N := mkPyobj 1 false NULL]>
             (<[8%N := mkPyobj 1 false 40%N]> ∅))))
    100%N 1 NULL EmptyString.

(** The statics as the loader leaves them (all zero), the exception
    object of the module at 90, and a caller's parameter buffer
    [{3.0, 1.0}] in block 1. *)
Definition start : xstate :=
  mkState NULL NULL [] NULL 90%N DNull NULL 0 NULL
    {[1%N := [3%R; 1%R]]} sample_interp.

(** A state in which a Python callable (at 33) with extra arguments (the
    tuple at 5) is active. *)
Definition python_active : xstate :=
  mkState 33%N 5%N [4; 5; 6] NULL 90%N DNull NULL 0 NULL ∅ sample_interp.

(** The typical fixture active with arity 2 on the buffer of block 1. *)
Definition typical_active : xstate :=
  (init_c_multivariate junk_record typical_addr 2 (DPtr 1 0) start).2.

(** A parameter array of [INT_MAX] doubles in block 1, and [sin2]
    active on it. *)
Definition huge : list R := replicate (Z.to_nat INT_MAX) 0%R.
Definition huge_active : xstate :=
  (init_c_multivariate junk_record sin2_addr INT_MAX (DPtr 1 0)
     (set_mem {[1%N := huge]} start)).2.

(** A callee that integrates again: it installs [sin2] with arity 0,
    evaluates it at its own first argument and restores. *)
Definition reentrant (n : Z) (args : list R) (st : xstate)
    : option (R * xstate) :=
  x ← args !! 0%nat;
  let '(_, store, st) :=
    init_c_multivariate junk_record sin2_addr 0 DNull st in
  '(v, st) ← call_c_multivariate testlib_code [x] st;
  Some (v, restore_c_multivariate store st).

Definition reentrant_addr : ptr := 4%N.

Definition nested_code (a : ptr) : option (nary_fn R (list Z) interp) :=
  if N.eqb a reentrant_addr then Some reentrant else testlib_code a.

(** A function of one variable passed by reference, as a callee. *)
Definition by_reference {D jmp_buf py : Type} (g : D -> D)
    : scalar_fn D jmp_buf py :=
  fun x st => x0 ← head x; Some (g x0, st).

Definition scalar_examples (a : ptr) : option (scalar_fn R (list Z) interp) :=
  if N.eqb a 10%N then Some (by_reference Rtrigo_def.sin)
  else if N.eqb a 11%N then Some (by_reference Rtrigo_def.cos)
  else None.

Definition spare_yrecord : YStorage := mkYStorage 84%N 85%N.

(** A function of the type [double ( * )(double * )] that reads the
    double after the one it is pointed at: [return x[1];]. *)
Definition second_double {D jmp_buf py : Type} : scalar_fn D jmp_buf py :=
  fun x st => x1 ← x !! 1%nat; Some (x1, st).

Definition second_double_addr : ptr := 12%N.

Definition scalar_examples_with_second (a : ptr)
    : option (scalar_fn R (list Z) interp) :=
  if N.eqb a second_double_addr then Some second_double
  else scalar_examples a.

(** [second_double] active in the wrapper context. *)
Definition second_double_active : xstate :=
  (funcwrapper_init spare_yrecord second_double_addr start).2.

(** The records and states of a nested use: the typical fixture
    outside, the callee that integrates again inside. *)
Definition outer_record : ZStorage :=
  (init_c_multivariate junk_record typical_addr 2 (DPtr 1 0) start).1.2.
Definition inner_record : ZStorage :=
  (init_c_multivariate junk_record reentrant_addr 0 DNull typical_active).1.2.
Definition reentrant_active : xstate :=
  (init_c_multivariate junk_record reentrant_addr 0 DNull typical_active).2.

Definition outer_evaluations : region R := Evaluate [0.5%R] Stop.
Definition inner_region : region R :=
  Evaluate [0.25%R]
    (Nested junk_record sin2_addr 0 DNull (Evaluate [1%R] Stop) Stop).

(** [funcwrapper] itself in the code table, over the scalar examples, and
    the two contexts chained: the sine active in the wrapper context,
    [funcwrapper] active with arity 2 on the buffer of block 1. *)
Definition funcwrapper_addr : ptr := 20%N.

Definition chained_code (a : ptr) : option (nary_fn R (list Z) interp) :=
  if N.eqb a funcwrapper_addr then Some (funcwrapper scalar_examples)
  else testlib_code a.

Definition junk_yrecord : YStorage := mkYStorage 82%N 83%N.

Definition chained_active : xstate :=
  (init_c_multivariate junk_record funcwrapper_addr 2 (DPtr 1 0)
     (funcwrapper_init junk_yrecord 10%N start).2).2.

(** The typical fixture active with arity 3 on the buffer of block 1,
    which has two elements only. *)
Definition short_active : xstate :=
  (init_c_multivariate junk_record typical_addr 3 (DPtr 1 0) start).2.

(** A Python error pending while a Python callable is active. *)
Definition error_pending : xstate :=
  set_pyrt (interp_err_set 91%N "callback failed" sample_interp) python_active.

(** * Properties *)

Section Properties.

Context {D jmp_buf py : Type} `{!PyRuntime py} `{!PyRuntimeLaws py}.
Context (nary_code : ptr -> option (nary_fn D jmp_buf py)).
Context (scalar_code : ptr -> option (scalar_fn D jmp_buf py)).

Implicit Types (st : state D jmp_buf py) (store : ZStorage).
Implicit Types (qstore : QStorage jmp_buf) (ystore : YStorage).
Implicit Types (p : list D) (r : region D).

Lemma is_null_true (f : ptr) : is_null f = true <-> f = NULL.
Proof. unfold is_null. apply N.eqb_eq. Qed.

Lemma is_null_false (f : ptr) : is_null f = false <-> f <> NULL.
Proof. unfold is_null. apply N.eqb_neq. Qed.


Lemma load_array_at (m : gmap N (list D)) (q : dptr) (a : list D)
    (i : nat) (v : D) :
  array_at m q a -> a !! i = Some v -> load m q (Z.of_nat i) = Some v.
Proof.
  intros Harr Hi. rewrite <- Hi. apply Harr.
  by apply lookup_lt_Some with v.
Qed.

(** The loop invariant: once [j] parameters are copied, the first
    [j + 1] cells are initialised and the others are not. *)
Lemma copy_loop_inv (fuel j : nat) st x p :
  array_at (mem st) (globalargs st) p ->
  globalnargs st = Z.of_nat (length p) ->
  (j <= length p)%nat ->
  (length p - j <= fuel)%nat ->
  copy_loop fuel (Z.of_nat j + 1) st
    ((Some <$> (x :: take j p)) ++ replicate (length p - j) None)
  = Some (Some <$> (x :: p)).
Proof.
  intros Harr Hn. revert j.
  induction fuel as [|fuel IH]; intros j Hj Hfuel.
  - assert (j = length p) as -> by lia.
    cbn [copy_loop]. rewrite Hn.
    rewrite (proj2 (Z.ltb_ge _ _)) by lia.
    by rewrite firstn_all, Nat.sub_diag, app_nil_r.
  - cbn [copy_loop]. rewrite Hn.
    destruct (Z.ltb_spec (Z.of_nat j + 1) (Z.of_nat (length p) + 1))
      as [Hlt|Hge].
    + destruct (lookup_lt_is_Some_2 p j) as [v Hv]; [lia|].
      replace (Z.of_nat j + 1 - 1) with (Z.of_nat j) by lia.
      rewrite (load_array_at _ _ _ _ _ Harr Hv). cbn [mbind option_bind].
      replace (Z.to_nat (Z.of_nat j + 1)) with (S j) by lia.
      replace (Z.of_nat j + 1 + 1) with (Z.of_nat (S j) + 1) by lia.
      replace (length p - j)%nat with (S (length p - S j)) by lia.
      rewrite <- (IH (S j)) by lia. f_equal.
      rewrite (take_S_r _ _ _ Hv).
      cbn [replicate]. rewrite insert_app_r_alt;
        rewrite length_fmap; cbn [length]; rewrite length_take; [|lia].
      replace (S j - S (j `min` length p))%nat with 0%nat by lia.
      cbn [fmap list_fmap]. rewrite fmap_app. cbn.
      by rewrite <- app_assoc.
    + assert (j = length p) as -> by lia.
      by rewrite firstn_all, Nat.sub_diag, app_nil_r.
Qed.

Lemma build_evalArray_concat st x rest p :
  array_at (mem st) (globalargs st) p ->
  globalnargs st = Z.of_nat (length p) ->
  globalnargs st < INT_MAX ->
  build_evalArray (x :: rest) st = Some (x :: p).
Proof.
  intros Harr Hn Hmax. unfold build_evalArray.
  rewrite (proj2 (Z.ltb_lt _ _)), (proj2 (Z.leb_le _ _)) by lia.
  cbn [andb head mbind option_bind].
  replace (Z.to_nat (globalnargs st + 1)) with (S (length p)) by lia.
  replace (Z.to_nat (globalnargs st)) with (length p) by lia.
  cbn [replicate]. cbn [insert list_insert].
  pose proof (copy_loop_inv (length p) 0 st x p Harr Hn) as Hloop.
  rewrite take_0, Nat.sub_0_r in Hloop.
  change (Z.of_nat 0 + 1) with 1 in Hloop. cbn in Hloop. cbn.
  rewrite Hloop by lia. cbn [mbind option_bind].
  change (Some x :: (Some <$> p)) with (Some <$> (x :: p)).
  by apply mapM_fmap_Some.
Qed.


(** With arity 0 the loop does not run: no parameter is read. *)
Lemma build_evalArray_arity_zero st x rest :
  globalnargs st = 0 -> build_evalArray (x :: rest) st = Some [x].
Proof.
  intros Hn. unfold build_evalArray. rewrite Hn.
  change ((0 <? 0 + 1) && (0 + 1 <=? INT_MAX)) with true.
  change (Z.to_nat 0) with O. cbn [head mbind option_bind copy_loop].
  rewrite Hn. reflexivity.
Qed.

Lemma init_c_multivariate_null store n args st :
  init_c_multivariate store NULL n args st
  = (NPY_FAIL,
     mkZStorage (globalargs st) (globalnargs st) (globalf st) args n NULL,
     st).
Proof. reflexivity. Qed.

Lemma init_c_multivariate_not_null store f n args st :
  f <> NULL ->
  init_c_multivariate store f n args st
  = (NPY_SUCCEED,
     mkZStorage (globalargs st) (globalnargs st) (globalf st) args n f,
     set_globalargs args (set_globalnargs n (set_globalf f st))).
Proof.
  intros Hf. unfold init_c_multivariate. cbn.
  by rewrite (proj2 (is_null_false f) Hf).
Qed.

Lemma init_c_multivariate_status store f n args st :
  (init_c_multivariate store f n args st).1.1
  = if is_null f then NPY_FAIL else NPY_SUCCEED.
Proof. unfold init_c_multivariate. cbn. by destruct (is_null f). Qed.

(** C1 (amended). For every arity [n] with [0 <= n < INT_MAX], every
    parameter array [p] of length [n] that the active parameter pointer
    points at, and every evaluation point [x]: when the context
    [(f, n, p)] is active, [call_c_multivariate] builds the array
    [x :: p] (x first, then the parameters in order) and returns
    exactly what the code of [f] returns on [(n, x :: p)]. *)
Theorem call_c_multivariate_concat st f g n args p x rest :
  active st = (f, n, args) ->
  f <> NULL ->
  nary_code f = Some g ->
  array_at (mem st) args p ->
  Z.of_nat (length p) = n ->
  n < INT_MAX ->
  build_evalArray (x :: rest) st = Some (x :: p)
  /\ call_c_multivariate nary_code (x :: rest) st = g n (x :: p) st.
Proof.
  unfold active. intros [= Hf Hn Hargs] Hnull Hcode Harr Hlen Hmax.
  assert (build_evalArray (x :: rest) st = Some (x :: p)) as Hbuild.
  { apply build_evalArray_concat; [by rewrite Hargs|lia|lia]. }
  split; [done|].
  unfold call_c_multivariate. rewrite Hbuild. cbn [mbind option_bind].
  rewrite Hf, (proj2 (is_null_false f) Hnull), Hcode. cbn.
  by rewrite Hn.
Qed.

(** C6. Arity zero is accepted: [init_c_multivariate] succeeds with
    [n = 0] and a non-null function, and an evaluation then builds the
    one-element array [[x]] and returns what the function returns on
    [(0, [x])], whatever the parameter pointer and the memory are. *)
Theorem arity_zero_accepted store f args st x rest :
  f <> NULL ->
  (init_c_multivariate store f 0 args st).1.1 = NPY_SUCCEED
  /\ active (init_c_multivariate store f 0 args st).2 = (f, 0, args)
  /\ build_evalArray (x :: rest) (init_c_multivariate store f 0 args st).2
     = Some [x]
  /\ call_c_multivariate nary_code (x :: rest)
       (init_c_multivariate store f 0 args st).2
     = (g ← nary_code f; g 0 [x] (init_c_multivariate store f 0 args st).2).
Proof.
  intros Hf. rewrite (init_c_multivariate_not_null _ _ _ _ _ Hf). cbn [fst snd].
  repeat split.
  unfold call_c_multivariate.
  rewrite build_evalArray_arity_zero by reflexivity. cbn.
  by rewrite (proj2 (is_null_false f) Hf).
Qed.

(** C9. When [init_c_multivariate] fails on a null function pointer it
    has already saved the active triple in the record, so a restore
    from that record sets the active triple to exactly the triple that
    was active before the install: from the state the failed install
    left, and from any state [st2] reached since, whatever triple is
    active there. *)
Theorem failed_install_then_restore store n args st st2 :
  (init_c_multivariate store NULL n args st).1.1 = NPY_FAIL
  /\ (z_f0 (init_c_multivariate store NULL n args st).1.2,
      z_nargs0 (init_c_multivariate store NULL n args st).1.2,
      z_args0 (init_c_multivariate store NULL n args st).1.2) = active st
  /\ active (restore_c_multivariate
               (init_c_multivariate store NULL n args st).1.2
               (init_c_multivariate store NULL n args st).2) = active st
  /\ active (restore_c_multivariate
               (init_c_multivariate store NULL n args st).1.2 st2)
     = active st.
Proof. rewrite init_c_multivariate_null. by repeat split. Qed.

(** C5. Every restore writes the saved half of its record into the
    process-wide state, whatever that state held, and is a total
    function: it has no failure outcome. *)
Theorem restore_writes_previous store qstore ystore ierr st :
  active (restore_c_multivariate store st)
    = (z_f0 store, z_nargs0 store, z_args0 store)
  /\ active_py (quad_restore_func qstore ierr st).2
    = (global0 qstore, global1 qstore, jmp qstore)
  /\ quadpack_ctypes_function (restore_ctypes_func qstore st)
    = global0 qstore
  /\ globalbasef (funcwrapper_restore ystore st) = y_func0 ystore.
Proof.
  repeat split.
  unfold quad_restore_func.
  destruct ierr as [v|]; [|done].
  by destruct (negb _).
Qed.


Lemma init_c_multivariate_record store f n args st :
  (init_c_multivariate store f n args st).1.2
  = mkZStorage (globalargs st) (globalnargs st) (globalf st) args n f.
Proof. unfold init_c_multivariate. cbn. by destruct (is_null f). Qed.

Lemma init_c_multivariate_succeeds store f n args st rec st' :
  init_c_multivariate store f n args st = (NPY_SUCCEED, rec, st') ->
  f <> NULL
  /\ rec = mkZStorage (globalargs st) (globalnargs st) (globalf st) args n f
  /\ st' = set_globalargs args (set_globalnargs n (set_globalf f st)).
Proof.
  destruct (N.eq_dec f NULL) as [->|Hf].
  - rewrite init_c_multivariate_null. discriminate.
  - rewrite (init_c_multivariate_not_null _ _ _ _ _ Hf). by intros [= <- <-].
Qed.

(** An evaluation through a balanced callee leaves the active triple
    as it was. *)
Lemma call_c_multivariate_balanced x st v st' :
  balanced nary_code ->
  call_c_multivariate nary_code x st = Some (v, st') ->
  active st' = active st.
Proof.
  intros Hbal. unfold call_c_multivariate.
  destruct (build_evalArray x st) as [a|]; [cbn|done].
  destruct (is_null (globalf st)); [done|].
  destruct (nary_code (globalf st)) as [g|] eqn:Hg; [cbn|done].
  intros Hcall. by apply (Hbal _ _ _ _ _ _ _ Hg Hcall).
Qed.

(** A region in stack order returns with the active triple it was
    entered with, whatever its depth and its number of evaluations. *)
Lemma run_balanced r :
  balanced nary_code ->
  forall st st', run nary_code r st = Some st' -> active st' = active st.
Proof.
  intros Hbal.
  induction r as [|x rest IH|store f n args body IHbody rest IHrest];
    intros st st' Hrun; cbn [run] in Hrun.
  - by injection Hrun as <-.
  - destruct (call_c_multivariate nary_code x st) as [[v st1]|] eqn:Hcall;
      [cbn in Hrun|done].
    rewrite (IH _ _ Hrun).
    by apply call_c_multivariate_balanced with x v.
  - pose proof (init_c_multivariate_record store f n args st) as Hrec.
    destruct (init_c_multivariate store f n args st) as [[status rec] st1].
    cbn [fst snd] in Hrec. subst rec.
    destruct (if status =? NPY_FAIL then Some st1 else run nary_code body st1)
      as [st2|]; [cbn in Hrun|done].
    by rewrite (IHrest _ _ Hrun).
Qed.

(** C2. Install/restore pairs compose like a stack. Pair B runs inside
    the region of pair A, after a region [pre] and before a region
    [post], each of any depth and with any number of evaluations, all
    callees being balanced. Then B's record saved exactly A's new
    values, B's restore makes A's new values active again, A's restore
    gives back what was active before A's install; and any region in
    stack order returns with the active triple it was entered with. *)
Theorem nested_pairs_compose st0 storeA fA nA argsA pre storeB fB nB argsB
    bodyB post recA stA st1 recB stB st2 st3 :
  balanced nary_code ->
  init_c_multivariate storeA fA nA argsA st0 = (NPY_SUCCEED, recA, stA) ->
  run nary_code pre stA = Some st1 ->
  init_c_multivariate storeB fB nB argsB st1 = (NPY_SUCCEED, recB, stB) ->
  run nary_code bodyB stB = Some st2 ->
  run nary_code post (restore_c_multivariate recB st2) = Some st3 ->
  (z_f1 recA, z_nargs1 recA, z_args1 recA) = (fA, nA, argsA)
  /\ (z_f0 recB, z_nargs0 recB, z_args0 recB)
     = (z_f1 recA, z_nargs1 recA, z_args1 recA)
  /\ active (restore_c_multivariate recB st2) = (fA, nA, argsA)
  /\ active (restore_c_multivariate recA st3) = active st0
  /\ (forall r st st', run nary_code r st = Some st' -> active st' = active st).
Proof.
  intros Hbal HA Hpre HB Hbody Hpost.
  apply init_c_multivariate_succeeds in HA as (_ & -> & ->).
  apply init_c_multivariate_succeeds in HB as (_ & -> & ->).
  apply (run_balanced _ Hbal) in Hpre. cbn in Hpre.
  unfold active in Hpre. injection Hpre as Hf Hn Hargs.
  repeat split; cbn; try congruence.
  - unfold active, restore_c_multivariate. cbn. congruence.
  - intros r. by apply run_balanced.
Qed.

Lemma quad_init_func_cases qstore fun_ arg_ st :
  let r := quad_init_func qstore fun_ arg_ st in
  (r.1.1 = NPY_FAIL /\ active_py r.2 = active_py st)
  \/ (r.1.1 = NPY_SUCCEED
      /\ (global0 r.1.2, global1 r.1.2, jmp r.1.2) = active_py st
      /\ quadpack_python_function r.2 = fun_
      /\ quadpack_extra_arguments r.2 = arg r.1.2
      /\ quadpack_jmpbuf r.2 = quadpack_jmpbuf st
      /\ arg r.1.2 <> NULL
      /\ arg r.1.2 = (if is_null arg_ then (PyTuple_New 0 (pyrt st)).1
                      else arg_)
      /\ PyTuple_Check (arg r.1.2) (pyrt r.2) = true).
Proof.
  unfold quad_init_func. cbn [arg set_arg set_jmp set_global0 set_global1].
  destruct (is_null arg_) eqn:Harg.
  - destruct (PyTuple_New 0 (pyrt st)) as [t rt] eqn:Hnew.
    destruct (is_null t) eqn:Ht; cbn; [by left|].
    destruct (PyTuple_Check t rt) eqn:Hchk; cbn; [right|by left].
    apply is_null_false in Ht. by repeat split.
  - cbn.
    destruct (PyTuple_Check arg_ (Py_INCREF arg_ (pyrt st))) eqn:Hchk;
      cbn; [right|by left].
    apply is_null_false in Harg. by repeat split.
Qed.

(** C3 (amended). For [init_c_multivariate] and [init_ctypes_func]: when
    the new function pointer is null the install returns failure and
    leaves the whole state as it was. [quad_init_func] does not test
    its function argument; whenever it returns failure the active Python
    function, extra arguments and jump buffer are as they were. *)
Theorem install_null_function_fails store qstore n args fun_ arg_ st :
  ((init_c_multivariate store NULL n args st).1.1 = NPY_FAIL
   /\ (init_c_multivariate store NULL n args st).2 = st)
  /\ (get_ctypes_function_pointer fun_ (pyrt st) = Some NULL ->
      exists qstore',
        init_ctypes_func qstore fun_ st = Some (NPY_FAIL, qstore', st))
  /\ ((quad_init_func qstore fun_ arg_ st).1.1 = NPY_FAIL ->
      active_py (quad_init_func qstore fun_ arg_ st).2 = active_py st).
Proof.
  split; [by rewrite init_c_multivariate_null|]. split.
  - intros Hnull. unfold init_ctypes_func. rewrite Hnull. cbn. eauto.
  - intros Hfail.
    destruct (quad_init_func_cases qstore fun_ arg_ st)
      as [[_ Hkeep]|[Hok _]]; [done|].
    rewrite Hok in Hfail. discriminate.
Qed.

(** C4. On a successful install the saved half of the record is the
    process-wide state as it was just before the call, and on return
    the process-wide state is the new half of the record: for
    [init_c_multivariate] the triple of function, arity and parameters,
    for [quad_init_func] the Python function and extra arguments (with
    the jump buffer saved). *)
Theorem install_saves_then_activates store qstore f n args fun_ arg_ st :
  ((init_c_multivariate store f n args st).1.1 = NPY_SUCCEED ->
   (z_f0 (init_c_multivariate store f n args st).1.2,
    z_nargs0 (init_c_multivariate store f n args st).1.2,
    z_args0 (init_c_multivariate store f n args st).1.2) = active st
   /\ active (init_c_multivariate store f n args st).2
      = (z_f1 (init_c_multivariate store f n args st).1.2,
         z_nargs1 (init_c_multivariate store f n args st).1.2,
         z_args1 (init_c_multivariate store f n args st).1.2)
   /\ active (init_c_multivariate store f n args st).2 = (f, n, args))
  /\ ((quad_init_func qstore fun_ arg_ st).1.1 = NPY_SUCCEED ->
      (global0 (quad_init_func qstore fun_ arg_ st).1.2,
       global1 (quad_init_func qstore fun_ arg_ st).1.2,
       jmp (quad_init_func qstore fun_ arg_ st).1.2) = active_py st
      /\ quadpack_python_function (quad_init_func qstore fun_ arg_ st).2
         = fun_
      /\ quadpack_extra_arguments (quad_init_func qstore fun_ arg_ st).2
         = arg (quad_init_func qstore fun_ arg_ st).1.2).
Proof.
  split.
  - rewrite init_c_multivariate_status.
    destruct (is_null f) eqn:Hf; [discriminate|intros _].
    apply is_null_false in Hf.
    by rewrite (init_c_multivariate_not_null _ _ _ _ _ Hf).
  - intros Hok.
    destruct (quad_init_func_cases qstore fun_ arg_ st)
      as [[Hfail _]|(_ & Hsaved & Hfun & Hextra & _)]; [|done].
    rewrite Hfail in Hok. discriminate.
Qed.

(** C10. [quad_init_func] and the extra arguments. With a null argument
    object and a tuple obtained from [PyTuple_New(0)], the install
    succeeds and that new tuple becomes the active extra arguments.
    After any successful install the active extra arguments are not
    null and are a tuple. With an argument object that is not null and
    not a tuple, the install fails and the active Python function,
    extra arguments and jump buffer are as they were. *)
Theorem quad_init_func_extra_arguments qstore fun_ arg_ st :
  (arg_ = NULL ->
   (PyTuple_New 0 (pyrt st)).1 <> NULL ->
   (quad_init_func qstore fun_ arg_ st).1.1 = NPY_SUCCEED
   /\ quadpack_extra_arguments (quad_init_func qstore fun_ arg_ st).2
      = (PyTuple_New 0 (pyrt st)).1)
  /\ ((quad_init_func qstore fun_ arg_ st).1.1 = NPY_SUCCEED ->
      quadpack_extra_arguments (quad_init_func qstore fun_ arg_ st).2
        <> NULL
      /\ PyTuple_Check
           (quadpack_extra_arguments (quad_init_func qstore fun_ arg_ st).2)
           (pyrt (quad_init_func qstore fun_ arg_ st).2) = true)
  /\ (arg_ <> NULL ->
      PyTuple_Check arg_ (pyrt st) = false ->
      (quad_init_func qstore fun_ arg_ st).1.1 = NPY_FAIL
      /\ active_py (quad_init_func qstore fun_ arg_ st).2 = active_py st).
Proof.
  split; [|split].
  - intros -> Hnew.
    pose proof (PyTuple_New_is_tuple 0 (pyrt st) Hnew) as Htuple.
    unfold quad_init_func.
    cbn [arg set_arg set_jmp set_global0 set_global1].
    change (is_null NULL) with true. cbn iota.
    destruct (PyTuple_New 0 (pyrt st)) as [t rt]. cbn [fst snd] in *.
    rewrite (proj2 (is_null_false t) Hnew). cbn. by rewrite Htuple.
  - intros Hok.
    destruct (quad_init_func_cases qstore fun_ arg_ st)
      as [[Hfail _]|(_ & _ & _ & Hextra & _ & Hnn & _ & Htuple)].
    + rewrite Hfail in Hok. discriminate.
    + by rewrite Hextra.
  - intros Harg Hcheck. apply is_null_false in Harg.
    unfold quad_init_func.
    cbn [arg set_arg set_jmp set_global0 set_global1].
    rewrite Harg. cbn. by rewrite Py_INCREF_keeps_type, Hcheck.
Qed.

(** C7 (amended). [funcwrapper] hands the pointer [args] itself, and so
    the whole argument array, to the active wrapper function and
    returns its result: the arity argument is not used, and the result
    depends on [args[0]] alone only for a function that reads nothing
    but the double it is pointed at. [funcwrapper_init] makes its
    function the active one. *)
Theorem funcwrapper_forwards ystore f g n n' (args args' : list D) st :
  f <> NULL ->
  scalar_code f = Some g ->
  globalbasef (funcwrapper_init ystore f st).2 = f
  /\ funcwrapper scalar_code n args (funcwrapper_init ystore f st).2
     = g args (funcwrapper_init ystore f st).2
  /\ funcwrapper scalar_code n' args (funcwrapper_init ystore f st).2
     = funcwrapper scalar_code n args (funcwrapper_init ystore f st).2
  /\ (reads_pointee_only g ->
      head args' = head args ->
      funcwrapper scalar_code n' args' (funcwrapper_init ystore f st).2
      = funcwrapper scalar_code n args (funcwrapper_init ystore f st).2).
Proof.
  intros Hf Hg. unfold funcwrapper, funcwrapper_init. cbn.
  rewrite (proj2 (is_null_false f) Hf), Hg. cbn.
  repeat split. intros Hscalar Hhead. by apply Hscalar.
Qed.

Lemma array_at_take (m : gmap N (list D)) (q : dptr) (a : list D) (k : nat) :
  array_at m q a -> array_at m q (take k a).
Proof.
  intros Harr i Hi. rewrite length_take in Hi.
  rewrite lookup_take_lt by lia. apply Harr. lia.
Qed.

(** An evaluation in an active context whose parameter pointer leads to
    at least [n] doubles. *)
Lemma evaluate_on_prefix st f g n args p x rest :
  active st = (f, n, args) ->
  f <> NULL ->
  nary_code f = Some g ->
  array_at (mem st) args p ->
  0 <= n <= Z.of_nat (length p) ->
  n < INT_MAX ->
  build_evalArray (x :: rest) st = Some (x :: take (Z.to_nat n) p)
  /\ call_c_multivariate nary_code (x :: rest) st
     = g n (x :: take (Z.to_nat n) p) st.
Proof.
  unfold active. intros [= Hf Hn Hargs] Hnull Hcode Harr Hlen Hmax.
  assert (build_evalArray (x :: rest) st = Some (x :: take (Z.to_nat n) p))
    as Hbuild.
  { apply build_evalArray_concat; [|rewrite length_take; lia|lia].
    rewrite Hargs. by apply array_at_take. }
  split; [done|].
  unfold call_c_multivariate. rewrite Hbuild. cbn [mbind option_bind].
  rewrite Hf, (proj2 (is_null_false f) Hnull), Hcode. cbn.
  by rewrite Hn.
Qed.

End Properties.

Section TestlibProperties.

Context {D jmp_buf py : Type} `{!FloatOps D}.

(** C8 (amended). With the typical fixture of testlib.c activated with
    arity 2 on a parameter array [p1; p2], an evaluation at [x] passes
    exactly the array [x; p1; p2] to the fixture and returns
    [cos(p1*x - p2*sin(x)) / PI], [PI] being the constant of testlib.c:
    the fixture divides by it. At [x = 0.5] on the parameters
    [3.0; 1.0] the array is [0.5; 3.0; 1.0] and the value
    [cos(3.0*0.5 - 1.0*sin(0.5)) / PI]. *)
Theorem typical_scenario store args (st : state D jmp_buf py) x rest p1 p2 :
  array_at (mem st) args [p1; p2] ->
  (init_c_multivariate store typical_addr 2 args st).1.1 = NPY_SUCCEED
  /\ build_evalArray (x :: rest)
       (init_c_multivariate store typical_addr 2 args st).2
     = Some [x; p1; p2]
  /\ call_c_multivariate testlib_code (x :: rest)
       (init_c_multivariate store typical_addr 2 args st).2
     = Some (d_div (d_cos (d_sub (d_mul p1 x) (d_mul p2 (d_sin x)))) PI,
             (init_c_multivariate store typical_addr 2 args st).2).
Proof.
  intros Harr.
  rewrite init_c_multivariate_not_null by discriminate. cbn [fst snd].
  split; [done|].
  destruct (evaluate_on_prefix testlib_code
              (set_globalargs args
                 (set_globalnargs 2 (set_globalf typical_addr st)))
              typical_addr (pure_callee typical) 2 args [p1; p2] x rest)
    as [Hbuild Hcall]; try done.
Qed.

End TestlibProperties.

(** * Further properties of the header *)

Section MoreProperties.

Context {D jmp_buf py : Type} `{!PyRuntime py} `{!PyErrLaws py}.
Context (nary_code : ptr -> option (nary_fn D jmp_buf py)).
Context (scalar_code : ptr -> option (scalar_fn D jmp_buf py)).

Implicit Types (st : state D jmp_buf py) (store : ZStorage).
Implicit Types (qstore : QStorage jmp_buf) (ystore : YStorage).
Implicit Types (p : list D).

(** What the loop leaves in [evalArray]: the cells before [i] as they
    were, the cells from [i] to [globalnargs] holding the parameters. *)
Lemma copy_loop_shape (fuel : nat) st :
  forall (i : Z) (ev ev' : list (option D)),
    0 <= i ->
    copy_loop fuel i st ev = Some ev' ->
    length ev' = length ev
    /\ (forall k : nat, Z.of_nat k < i -> ev' !! k = ev !! k)
    /\ (forall k : nat,
          i <= Z.of_nat k < globalnargs st + 1 ->
          (k < length ev)%nat ->
          ev' !! k
          = Some (load (mem st) (globalargs st) (Z.of_nat k - 1))).
Proof.
  assert (forall (i : Z) (ev ev' : list (option D)),
            globalnargs st + 1 <= i ->
            Some ev = Some ev' ->
            length ev' = length ev
            /\ (forall k : nat, Z.of_nat k < i -> ev' !! k = ev !! k)
            /\ (forall k : nat,
                  i <= Z.of_nat k < globalnargs st + 1 ->
                  (k < length ev)%nat ->
                  ev' !! k
                  = Some (load (mem st) (globalargs st) (Z.of_nat k - 1))))
    as Hexit.
  { intros i ev ev' Hge [= <-]. split; [done|]. split; [done|].
    intros k Hk. lia. }
  induction fuel as [|fuel IH]; intros i ev ev' Hi; cbn [copy_loop];
    destruct (Z.ltb_spec i (globalnargs st + 1)) as [Hlt|Hge];
    [discriminate|by apply Hexit| |by apply Hexit].
  destruct (load (mem st) (globalargs st) (i - 1)) as [v|] eqn:Hload;
    cbn [mbind option_bind]; [|discriminate].
  intros Hloop. apply IH in Hloop as (Hlen & Hbefore & Hafter); [|lia].
  rewrite length_insert in Hlen, Hafter. split; [done|]. split.
  - intros k Hk. rewrite Hbefore by lia.
    apply list_lookup_insert_ne. lia.
  - intros k Hk Hklen.
    destruct (Z.eq_dec (Z.of_nat k) i) as [<-|Hne].
    + rewrite Hbefore by lia. rewrite Nat2Z.id.
      rewrite list_lookup_insert_eq by done. by rewrite Hload.
    + apply Hafter; [lia|done].
Qed.

(** X1. An install followed by the restore from its record gives back
    the whole state, whether the install succeeded or not: the statics
    outside the triple, the memory and the interpreter are never
    touched by either. *)
Theorem multivariate_round_trip store f n args st :
  restore_c_multivariate (init_c_multivariate store f n args st).1.2
    (init_c_multivariate store f n args st).2 = st.
Proof.
  unfold init_c_multivariate. cbn.
  destruct (is_null f); by destruct st.
Qed.

(** X2. Whenever the construction of [evalArray] is defined, the arity
    is in [0 .. INT_MAX - 1], the array has arity + 1 elements, its
    first element is the evaluation point and element [i + 1] is the
    parameter [globalargs[i]] read from memory. *)
Theorem build_evalArray_shape (x a : list D) st :
  build_evalArray x st = Some a ->
  0 <= globalnargs st < INT_MAX
  /\ Z.of_nat (length a) = globalnargs st + 1
  /\ head a = head x
  /\ (forall i : nat,
        Z.of_nat i < globalnargs st ->
        a !! S i = load (mem st) (globalargs st) (Z.of_nat i)
        /\ is_Some (a !! S i)).
Proof.
  unfold build_evalArray.
  destruct (Z.ltb_spec 0 (globalnargs st + 1)) as [Hpos|]; [|done].
  destruct (Z.leb_spec (globalnargs st + 1) INT_MAX) as [Hmax|]; [|done].
  cbn [andb]. destruct (head x) as [x0|]; [cbn [mbind option_bind]|done].
  destruct (copy_loop _ _ _ _) as [ev|] eqn:Hloop;
    [cbn [mbind option_bind]|done].
  intros Hall. apply mapM_Some_1 in Hall.
  apply copy_loop_shape in Hloop as (Hlen & Hbefore & Hafter); [|lia].
  rewrite length_insert, length_replicate in Hlen, Hafter.
  pose proof (Forall2_length _ _ _ Hall) as Hlen'.
  split; [lia|]. split; [lia|]. split.
  - rewrite head_lookup.
    assert (ev !! 0%nat = Some (Some x0)) as H0.
    { rewrite Hbefore by lia. apply list_lookup_insert_eq.
      rewrite length_replicate. lia. }
    destruct (Forall2_lookup_l _ _ _ _ _ Hall H0) as (y & -> & [= ->]).
    done.
  - intros i Hi.
    assert (ev !! S i
            = Some (load (mem st) (globalargs st) (Z.of_nat (S i) - 1)))
      as HSi by (apply Hafter; lia).
    replace (Z.of_nat (S i) - 1) with (Z.of_nat i) in HSi by lia.
    destruct (Forall2_lookup_l _ _ _ _ _ Hall HSi) as (y & -> & ->).
    eauto.
Qed.

(** X3. What lies behind the first [n] doubles of the parameter array is
    not read: with the active pointer leading to [p ++ extra], [p] of
    length [n], the array passed is [x :: p]. *)
Theorem parameters_beyond_arity_ignored st f g n args p (extra : list D)
    x rest :
  active st = (f, n, args) ->
  f <> NULL ->
  nary_code f = Some g ->
  array_at (mem st) args (p ++ extra) ->
  Z.of_nat (length p) = n ->
  n < INT_MAX ->
  build_evalArray (x :: rest) st = Some (x :: p)
  /\ call_c_multivariate nary_code (x :: rest) st = g n (x :: p) st.
Proof.
  intros Hact Hf Hg Harr Hlen Hmax.
  destruct (evaluate_on_prefix nary_code st f g n args (p ++ extra) x rest)
    as [Hbuild Hcall]; try done.
  { rewrite length_app. lia. }
  replace (Z.to_nat n) with (length p) in * by lia.
  by rewrite take_app_length in Hbuild, Hcall.
Qed.

(** X4. The install keeps the pointer to the parameters, not their
    values: an evaluation passes what the pointer leads to in the memory
    of the moment of the evaluation, whatever the memory held at the
    install. *)
Theorem install_keeps_pointer store f g n args st
    (m' : gmap N (list D)) p x rest :
  f <> NULL ->
  nary_code f = Some g ->
  array_at m' args p ->
  Z.of_nat (length p) = n ->
  n < INT_MAX ->
  call_c_multivariate nary_code (x :: rest)
    (set_mem m' (init_c_multivariate store f n args st).2)
  = g n (x :: p) (set_mem m' (init_c_multivariate store f n args st).2).
Proof.
  intros Hf Hg Harr Hlen Hmax.
  rewrite init_c_multivariate_not_null by done. cbn [snd].
  destruct (evaluate_on_prefix nary_code
              (set_mem m'
                 (set_globalargs args (set_globalnargs n (set_globalf f st))))
              f g n args p x rest) as [_ Hcall]; try done; [lia|].
  replace (Z.to_nat n) with (length p) in Hcall by lia.
  by rewrite firstn_all in Hcall.
Qed.

(** X5. The install does not validate the arity: with a non-null
    function it succeeds for a negative arity and for [INT_MAX], and
    every evaluation in the context it leaves is undefined (the array
    would have no element, or a size that is not an [int]). *)
Theorem arity_not_validated store f n args st (x : list D) :
  f <> NULL ->
  n < 0 \/ n = INT_MAX ->
  (init_c_multivariate store f n args st).1.1 = NPY_SUCCEED
  /\ call_c_multivariate nary_code x (init_c_multivariate store f n args st).2
     = None.
Proof.
  intros Hf Hn. rewrite init_c_multivariate_not_null by done. cbn [fst snd].
  split; [done|]. unfold call_c_multivariate, build_evalArray. cbn.
  destruct Hn as [Hneg| ->].
  - by rewrite (proj2 (Z.ltb_ge 0 (n + 1))) by lia.
  - done.
Qed.

Lemma copy_loop_missing (fuel : nat) st (j : Z) :
  j < globalnargs st ->
  load (mem st) (globalargs st) j = None ->
  forall (i : Z) (ev : list (option D)),
    i - 1 <= j -> copy_loop fuel i st ev = None.
Proof.
  intros Hj Hload.
  induction fuel as [|fuel IH]; intros i ev Hi; cbn [copy_loop];
    rewrite (proj2 (Z.ltb_lt i (globalnargs st + 1))) by lia; [done|].
  destruct (Z.eq_dec (i - 1) j) as [->|Hne]; [by rewrite Hload|].
  destruct (load (mem st) (globalargs st) (i - 1)); [cbn|done].
  apply IH. lia.
Qed.

(** X6. An evaluation is undefined when one of the first [n] parameters
    cannot be read: through a null parameter pointer with a positive
    arity, or into an array shorter than the arity. *)
Theorem missing_parameter_undefined st (j : Z) (x : list D) :
  0 <= j < globalnargs st ->
  load (mem st) (globalargs st) j = None ->
  build_evalArray x st = None
  /\ call_c_multivariate nary_code x st = None.
Proof.
  intros Hj Hload.
  assert (build_evalArray x st = None) as Hbuild.
  { unfold build_evalArray.
    destruct ((0 <? globalnargs st + 1) && (globalnargs st + 1 <=? INT_MAX));
      [|done].
    destruct (head x); [cbn [mbind option_bind]|done].
    rewrite (copy_loop_missing _ st j) by (done || lia). done. }
  split; [done|]. unfold call_c_multivariate. by rewrite Hbuild.
Qed.

(** X7. The two contexts chained as the header describes: with
    [funcwrapper] installed as the function of several variables and a
    function of one variable active in the wrapper context, an
    evaluation at [x] returns what that function returns on the array
    that starts with [x]; when it reads only the double it is pointed
    at, the parameters have no effect. *)
Theorem funcwrapper_as_multivariate st fw b g n args p x rest :
  nary_code fw = Some (funcwrapper scalar_code) ->
  active st = (fw, n, args) ->
  fw <> NULL ->
  globalbasef st = b ->
  b <> NULL ->
  scalar_code b = Some g ->
  array_at (mem st) args p ->
  Z.of_nat (length p) = n ->
  n < INT_MAX ->
  call_c_multivariate nary_code (x :: rest) st = g (x :: p) st
  /\ (reads_pointee_only g ->
      call_c_multivariate nary_code (x :: rest) st = g [x] st).
Proof.
  intros Hfw Hact Hnull Hb Hbnull Hg Harr Hlen Hmax.
  destruct (evaluate_on_prefix nary_code st fw (funcwrapper scalar_code)
              n args p x rest) as [_ Hcall]; try done; [lia|].
  replace (Z.to_nat n) with (length p) in Hcall by lia.
  rewrite firstn_all in Hcall. rewrite Hcall.
  unfold funcwrapper. rewrite Hb, (proj2 (is_null_false b) Hbnull), Hg.
  cbn. split; [done|]. intros Hscalar. by apply Hscalar.
Qed.

(** X8. Wrapper pairs nest: with B installed inside A, an evaluation
    through [funcwrapper] reaches A's function before B's install and
    B's function after it, B's record saved A's function, B's restore
    gives back the whole state A's install left, and A's restore the
    whole state before it. *)
Theorem wrapper_pairs_nest ystoreA ystoreB fA fB gA gB n (args : list D) st :
  fA <> NULL ->
  fB <> NULL ->
  scalar_code fA = Some gA ->
  scalar_code fB = Some gB ->
  funcwrapper scalar_code n args (funcwrapper_init ystoreA fA st).2
    = gA args (funcwrapper_init ystoreA fA st).2
  /\ funcwrapper scalar_code n args
       (funcwrapper_init ystoreB fB (funcwrapper_init ystoreA fA st).2).2
     = gB args
         (funcwrapper_init ystoreB fB (funcwrapper_init ystoreA fA st).2).2
  /\ y_func0 (funcwrapper_init ystoreB fB
               (funcwrapper_init ystoreA fA st).2).1 = fA
  /\ funcwrapper_restore
       (funcwrapper_init ystoreB fB (funcwrapper_init ystoreA fA st).2).1
       (funcwrapper_init ystoreB fB (funcwrapper_init ystoreA fA st).2).2
     = (funcwrapper_init ystoreA fA st).2
  /\ funcwrapper_restore (funcwrapper_init ystoreA fA st).1
       (funcwrapper_init ystoreA fA st).2 = st.
Proof.
  intros HfA HfB HgA HgB. unfold funcwrapper, funcwrapper_init. cbn.
  rewrite (proj2 (is_null_false fA) HfA), (proj2 (is_null_false fB) HfB).
  rewrite HgA, HgB. cbn. repeat split. by destruct st.
Qed.

(** X9. The ctypes context: when the function object resolves to a
    pointer, the install fails on a null pointer and succeeds otherwise,
    its record holds the previously active function and the resolved
    pointer, and the restore from that record gives back the whole
    state in both cases; when the object cannot be read the install is
    undefined. *)
Theorem ctypes_round_trip qstore fun_ st :
  (forall target,
     get_ctypes_function_pointer fun_ (pyrt st) = Some target ->
     exists qstore' st',
       init_ctypes_func qstore fun_ st
       = Some (if is_null target then NPY_FAIL else NPY_SUCCEED,
               qstore', st')
       /\ quadpack_ctypes_function st'
          = (if is_null target then quadpack_ctypes_function st
             else target)
       /\ global0 qstore' = quadpack_ctypes_function st
       /\ global1 qstore' = target
       /\ restore_ctypes_func qstore' st' = st)
  /\ (get_ctypes_function_pointer fun_ (pyrt st) = None ->
      init_ctypes_func qstore fun_ st = None).
Proof.
  split.
  - intros target Hget. unfold init_ctypes_func. rewrite Hget. cbn.
    destruct (is_null target); eexists _, _; (split; [reflexivity|]);
      repeat split; by destruct st.
  - intros Hget. unfold init_ctypes_func. by rewrite Hget.
Qed.

(** X10. [quad_init_func] never writes the jump buffer, the ctypes
    function, the error object or any static of the two other
    contexts, nor the memory: whatever its outcome, putting back the
    Python function, the extra arguments and the interpreter gives the
    state it was called in. *)
Theorem quad_init_func_frame qstore fun_ arg_ st :
  set_quadpack_python_function (quadpack_python_function st)
    (set_quadpack_extra_arguments (quadpack_extra_arguments st)
       (set_pyrt (pyrt st) (quad_init_func qstore fun_ arg_ st).2)) = st.
Proof.
  unfold quad_init_func. cbn [arg set_arg set_jmp set_global0 set_global1].
  destruct (is_null arg_).
  - destruct (PyTuple_New 0 (pyrt st)) as [t rt].
    destruct (is_null t); cbn; [by destruct st|].
    destruct (PyTuple_Check t rt); cbn; by destruct st.
  - cbn. destruct (PyTuple_Check arg_ _); cbn; by destruct st.
Qed.

(** X11. The Python context round trip: [quad_init_func] followed by
    [quad_restore_func] on its record gives back every static variable
    and the memory, whatever the outcome of the install; only the
    interpreter may differ. *)
Theorem python_round_trip qstore fun_ arg_ ierr st :
  set_pyrt (pyrt st)
    (quad_restore_func (quad_init_func qstore fun_ arg_ st).1.2 ierr
       (quad_init_func qstore fun_ arg_ st).2).2 = st.
Proof.
  unfold quad_init_func. cbn [arg set_arg set_jmp set_global0 set_global1].
  destruct (is_null arg_).
  - destruct (PyTuple_New 0 (pyrt st)) as [t rt].
    destruct (is_null t); cbn.
    + unfold quad_restore_func. cbn.
      destruct ierr; [destruct (negb _)|]; by destruct st.
    + destruct (PyTuple_Check t rt); cbn; unfold quad_restore_func; cbn;
        (destruct ierr; [destruct (negb _)|]); by destruct st.
  - cbn. destruct (PyTuple_Check arg_ _); cbn; unfold quad_restore_func; cbn;
      (destruct ierr; [destruct (negb _)|]); by destruct st.
Qed.

(** X12. The error report of [quad_restore_func]: with a non-null
    [ierr] it returns with no Python error pending, and [*ierr] is 80
    exactly when one was pending after the release of the extra
    arguments, else what it was; with a null [ierr] a pending error is
    left in place. *)
Theorem quad_restore_func_reports_error qstore (v : Z) st :
  PyErr_Occurred (pyrt (quad_restore_func qstore (Some v) st).2) = NULL
  /\ (quad_restore_func qstore (Some v) st).1
     = Some (if is_null (PyErr_Occurred (Py_XDECREF (arg qstore) (pyrt st)))
             then v else 80)
  /\ (quad_restore_func qstore None st).1 = None
  /\ pyrt (quad_restore_func qstore None st).2
     = Py_XDECREF (arg qstore) (pyrt st).
Proof.
  unfold quad_restore_func. cbn.
  destruct (is_null (PyErr_Occurred (Py_XDECREF (arg qstore) (pyrt st))))
    eqn:Hpending; cbn.
  - by apply is_null_true in Hpending.
  - by rewrite PyErr_Clear_clears.
Qed.

(** X17. The two contexts are independent: installing the wrapper
    function and installing the multivariate triple commute, each
    writing the same record and leaving the same state in either
    order. *)
Theorem contexts_commute store ystore f b n args st :
  (funcwrapper_init ystore b (init_c_multivariate store f n args st).2).2
    = (init_c_multivariate store f n args (funcwrapper_init ystore b st).2).2
  /\ (funcwrapper_init ystore b (init_c_multivariate store f n args st).2).1
     = (funcwrapper_init ystore b st).1
  /\ (init_c_multivariate store f n args (funcwrapper_init ystore b st).2).1
     = (init_c_multivariate store f n args st).1.
Proof.
  unfold init_c_multivariate, funcwrapper_init. cbn.
  by destruct (is_null f).
Qed.

(** X18. Restores out of stack order are not detected and do not give
    back the first state: after the installs A then B and the restores
    from A's record then from B's, the state is the one A's install
    left, with A's triple active. *)
Theorem out_of_order_restores storeA storeB fA nA argsA fB nB argsB st :
  fA <> NULL ->
  fB <> NULL ->
  restore_c_multivariate
    (init_c_multivariate storeB fB nB argsB
       (init_c_multivariate storeA fA nA argsA st).2).1.2
    (restore_c_multivariate (init_c_multivariate storeA fA nA argsA st).1.2
       (init_c_multivariate storeB fB nB argsB
          (init_c_multivariate storeA fA nA argsA st).2).2)
  = (init_c_multivariate storeA fA nA argsA st).2
  /\ active (init_c_multivariate storeA fA nA argsA st).2 = (fA, nA, argsA).
Proof.
  intros HfA HfB.
  rewrite (init_c_multivariate_not_null storeA fA _ _ _ HfA). cbn [fst snd].
  rewrite (init_c_multivariate_not_null storeB fB _ _ _ HfB). cbn [fst snd].
  split; [by destruct st|done].
Qed.

(** X19. No install reads its record before writing it: the outcome of
    each install is the same whatever the record held, the ctypes
    install leaving alone the two fields its restore does not read. *)
Theorem records_need_no_initialisation store store' ystore ystore'
    qstore qstore' f n args fun_ arg_ st :
  init_c_multivariate store f n args st
    = init_c_multivariate store' f n args st
  /\ funcwrapper_init ystore f st = funcwrapper_init ystore' f st
  /\ quad_init_func qstore fun_ arg_ st = quad_init_func qstore' fun_ arg_ st
  /\ (fun r => (r.1.1, global0 r.1.2, global1 r.1.2, r.2,
                restore_ctypes_func r.1.2 r.2))
       <$> init_ctypes_func qstore fun_ st
     = (fun r => (r.1.1, global0 r.1.2, global1 r.1.2, r.2,
                  restore_ctypes_func r.1.2 r.2))
         <$> init_ctypes_func qstore' fun_ st.
Proof.
  repeat split.
  unfold init_ctypes_func.
  destruct (get_ctypes_function_pointer fun_ (pyrt st)) as [target|];
    [cbn|done].
  by destruct (is_null target).
Qed.

End MoreProperties.

Section MoreTestlibProperties.

Context {D jmp_buf py : Type} `{!FloatOps D}.

Implicit Types (st : state D jmp_buf py) (p : list D).



End MoreTestlibProperties.

(** * Reference counts in the reference-counting interpreter *)

Section ReferenceCounts.

Context {D jmp_buf : Type}.

Implicit Types (st : state D jmp_buf interp) (qstore : QStorage jmp_buf).

(** X15. "We decrement on restore": with a live tuple as extra
    arguments the install takes one reference and the restore gives it
    back; with absent extra arguments the install creates a tuple with
    one reference and the restore releases it. In both cases the objects
    after the restore are the objects before the install. *)
Theorem quad_reference_balance qstore fun_ arg_ ierr st :
  (forall o,
     arg_ <> NULL ->
     objects (pyrt st) !! arg_ = Some o ->
     ob_is_tuple o = true ->
     1 <= ob_refcnt o ->
     (quad_init_func qstore fun_ arg_ st).1.1 = NPY_SUCCEED
     /\ objects (pyrt (quad_init_func qstore fun_ arg_ st).2) !! arg_
        = Some (mkPyobj (ob_refcnt o + 1) true (ob_target o))
     /\ objects
          (pyrt (quad_restore_func (quad_init_func qstore fun_ arg_ st).1.2
                   ierr (quad_init_func qstore fun_ arg_ st).2).2)
        = objects (pyrt st))
  /\ (arg_ = NULL ->
      allocs_left (pyrt st) <> O ->
      objects (pyrt st) !! N.succ (last_addr (pyrt st)) = None ->
      (quad_init_func qstore fun_ arg_ st).1.1 = NPY_SUCCEED
      /\ quadpack_extra_arguments (quad_init_func qstore fun_ arg_ st).2
         = N.succ (last_addr (pyrt st))
      /\ objects (pyrt (quad_init_func qstore fun_ arg_ st).2)
           !! N.succ (last_addr (pyrt st))
         = Some (mkPyobj 1 true NULL)
      /\ objects
           (pyrt (quad_restore_func (quad_init_func qstore fun_ arg_ st).1.2
                    ierr (quad_init_func qstore fun_ arg_ st).2).2)
         = objects (pyrt st)).
Proof.
  split.
  - intros [c tuple target] Harg Hlive Htuple Hcount. cbn in Htuple, Hcount.
    subst tuple. apply is_null_false in Harg.
    unfold quad_init_func.
    cbn [arg set_arg set_jmp set_global0 set_global1]. rewrite Harg.
    cbn -[interp_incref interp_xdecref interp_tuple_check interp_err_set].
    assert (objects (interp_incref arg_ (pyrt st)) !! arg_
            = Some (mkPyobj (c + 1) true target)) as Hinc.
    { unfold interp_incref. cbn. by rewrite lookup_alter_eq, Hlive. }
    assert (interp_tuple_check arg_ (interp_incref arg_ (pyrt st)) = true)
      as Hchk by (unfold interp_tuple_check; by rewrite Hinc).
    rewrite Hchk.
    cbn -[interp_incref interp_xdecref interp_tuple_check interp_err_set].
    split; [done|]. split; [done|].
    unfold quad_restore_func.
    cbn -[interp_incref interp_xdecref interp_tuple_check interp_err_set].
    assert (objects (interp_xdecref arg_ (interp_incref arg_ (pyrt st)))
            = objects (pyrt st)) as Hdec.
    { unfold interp_xdecref. rewrite Harg, Hinc. cbn.
      rewrite (proj2 (Z.leb_gt _ _)) by lia. cbn.
      rewrite insert_alter_eq. apply insert_id. rewrite Hlive.
      do 2 f_equal. lia. }
    destruct ierr as [v|]; [destruct (negb _)|]; cbn; exact Hdec.
  - intros -> Halloc Hfresh.
    unfold quad_init_func.
    cbn [arg set_arg set_jmp set_global0 set_global1].
    change (is_null NULL) with true. cbn iota.
    cbn [pyrt set_pyrt PyTuple_New interp_runtime]. unfold interp_tuple_new.
    destruct (allocs_left (pyrt st)) as [|k]; [done|].
    set (a := N.succ (last_addr (pyrt st))) in *.
    assert (is_null a = false) as Ha
      by (apply is_null_false; unfold a, NULL; lia).
    rewrite Ha. cbn.
    unfold interp_tuple_check. cbn. rewrite lookup_insert_eq. cbn.
    split; [done|]. split; [done|]. split; [by rewrite lookup_insert_eq|].
    unfold quad_restore_func. cbn.
    assert (objects
              (interp_xdecref a
                 (mkInterp (<[a:=mkPyobj 1 true NULL]> (objects (pyrt st)))
                    a k (err_type (pyrt st)) (err_message (pyrt st))))
            = objects (pyrt st)) as Hdec.
    { unfold interp_xdecref. rewrite Ha. cbn. rewrite lookup_insert_eq. cbn.
      rewrite delete_insert_eq. by apply delete_id. }
    destruct ierr as [v|]; [destruct (negb _)|]; cbn; exact Hdec.
Qed.

(** X16. Extra arguments that are a live object but no tuple: the
    install fails with the objects (and so every reference count) as
    they were, the reference taken being given back, and with the
    module's error object and the message set as the pending error. *)
Theorem quad_init_func_rejects_non_tuple qstore fun_ arg_ st o :
  arg_ <> NULL ->
  objects (pyrt st) !! arg_ = Some o ->
  ob_is_tuple o = false ->
  1 <= ob_refcnt o ->
  (quad_init_func qstore fun_ arg_ st).1.1 = NPY_FAIL
  /\ objects (pyrt (quad_init_func qstore fun_ arg_ st).2)
     = objects (pyrt st)
  /\ err_type (pyrt (quad_init_func qstore fun_ arg_ st).2)
     = quadpack_error st
  /\ err_message (pyrt (quad_init_func qstore fun_ arg_ st).2)
     = "Extra Arguments must be in a tuple"%string.
Proof.
  destruct o as [c tuple target]. intros Harg Hlive Htuple Hcount.
  cbn in Htuple, Hcount. subst tuple. apply is_null_false in Harg.
  unfold quad_init_func.
  cbn [arg set_arg set_jmp set_global0 set_global1]. rewrite Harg.
  cbn -[interp_incref interp_xdecref interp_tuple_check interp_err_set].
  assert (objects (interp_incref arg_ (pyrt st)) !! arg_
          = Some (mkPyobj (c + 1) false target)) as Hinc.
  { unfold interp_incref. cbn. by rewrite lookup_alter_eq, Hlive. }
  assert (interp_tuple_check arg_ (interp_incref arg_ (pyrt st)) = false)
    as Hchk by (unfold interp_tuple_check; by rewrite Hinc).
  rewrite Hchk.
  cbn -[interp_incref interp_xdecref interp_tuple_check interp_err_set].
  split; [done|].
  unfold interp_xdecref. rewrite Harg. cbn. rewrite lookup_alter_eq, Hlive.
  cbn. rewrite (proj2 (Z.leb_gt _ _)) by lia. cbn.
  repeat split.
  rewrite insert_alter_eq. apply insert_id. rewrite Hlive.
  do 2 f_equal. lia.
Qed.

End ReferenceCounts.

(** * The properties on concrete states *)

Lemma interp_tuple_new_is_tuple n rt :
  (interp_tuple_new n rt).1 <> NULL ->
  interp_tuple_check (interp_tuple_new n rt).1 (interp_tuple_new n rt).2
  = true.
Proof.
  unfold interp_tuple_new, interp_tuple_check.
  destruct (allocs_left rt); cbn; [done|].
  intros _. by rewrite lookup_insert_eq.
Qed.

Lemma interp_incref_keeps_type o a rt :
  interp_tuple_check o (interp_incref a rt) = interp_tuple_check o rt.
Proof.
  unfold interp_tuple_check, interp_incref; cbn.
  rewrite lookup_alter. case_decide; [subst|done].
  by destruct (objects rt !! o).
Qed.

#[export] Instance interp_laws : PyRuntimeLaws interp.
Proof.
  split; [apply interp_tuple_new_is_tuple|apply interp_incref_keeps_type].
Qed.


Lemma array_at_block (l : list R) :
  array_at ({[1%N := l]} : gmap N (list R)) (DPtr 1 0) l.
Proof.
  intros i _. unfold load. rewrite lookup_singleton_eq. cbn.
  rewrite Z.add_0_l, Nat2Z.id.
  by rewrite (proj2 (Z.leb_le _ _)) by lia.
Qed.

Lemma build_evalArray_overflow {D jmp_buf py : Type} (x : list D)
    (st : state D jmp_buf py) :
  globalnargs st = INT_MAX -> build_evalArray x st = None.
Proof. intros Hn. unfold build_evalArray. by rewrite Hn. Qed.

(** C1 on the typical fixture: arity 2, parameters [3.0; 1.0], evaluation
    at 0.5. *)
Lemma call_c_multivariate_concat_witness :
  build_evalArray [0.5%R] typical_active = Some [0.5%R; 3%R; 1%R]
  /\ call_c_multivariate testlib_code [0.5%R] typical_active
     = pure_callee typical 2 [0.5%R; 3%R; 1%R] typical_active.
Proof.
  apply (call_c_multivariate_concat testlib_code typical_active typical_addr
           (pure_callee typical) 2 (DPtr 1 0) [3%R; 1%R] 0.5%R []).
  - reflexivity.
  - discriminate.
  - reflexivity.
  - apply array_at_block.
  - reflexivity.
  - reflexivity.
Defined.

(** C1, as stated, fails at arity [INT_MAX]: the context
    [(sin2, INT_MAX, huge)] is active, [huge] has [INT_MAX] elements,
    the callee is defined on [(INT_MAX, 0.5 :: huge)], and yet the
    evaluation is undefined, the size [globalnargs + 1] of the array
    not being an [int]. *)
Lemma call_c_multivariate_int_max :
  active huge_active = (sin2_addr, INT_MAX, DPtr 1 0)
  /\ @testlib_code R _ (list Z) interp sin2_addr = Some (pure_callee sin2)
  /\ array_at (mem huge_active) (DPtr 1 0) huge
  /\ Z.of_nat (length huge) = INT_MAX
  /\ pure_callee sin2 INT_MAX (0.5%R :: huge) huge_active
     = Some (Rtrigo_def.sin 0.5, huge_active)
  /\ call_c_multivariate testlib_code [0.5%R] huge_active = None
  /\ call_c_multivariate testlib_code [0.5%R] huge_active
     <> pure_callee sin2 INT_MAX (0.5%R :: huge) huge_active.
Proof.
  assert (call_c_multivariate testlib_code [0.5%R] huge_active = None)
    as Hnone.
  { unfold call_c_multivariate.
    by rewrite (build_evalArray_overflow _ huge_active eq_refl). }
  split; [reflexivity|].
  split; [reflexivity|].
  split; [apply array_at_block|].
  split.
  { unfold huge. rewrite length_replicate. apply Z2Nat.id. discriminate. }
  split; [reflexivity|].
  split; [exact Hnone|].
  rewrite Hnone. discriminate.
Qed.

Lemma testlib_code_balanced {D jmp_buf py : Type} `{!FloatOps D} :
  balanced (@testlib_code D _ jmp_buf py).
Proof.
  intros a g n l st v st' Hcode Hg. unfold testlib_code in Hcode.
  repeat (destruct (N.eqb a _); [injection Hcode as <-|]); try done;
    unfold pure_callee in Hg;
    match type of Hg with
    | context [?h n l] => destruct (h n l); [|done]
    end; by injection Hg as _ <-.
Qed.

Lemma nested_code_balanced : balanced nested_code.
Proof.
  intros a g n l st v st' Hcode Hg. unfold nested_code in Hcode.
  destruct (N.eqb a reentrant_addr).
  - injection Hcode as <-. unfold reentrant in Hg.
    destruct (l !! 0%nat) as [x|]; [cbn [mbind option_bind] in Hg|done].
    rewrite init_c_multivariate_not_null in Hg by discriminate.
    destruct (call_c_multivariate _ _ _) as [[v1 st1]|]; [cbn in Hg|done].
    by injection Hg as _ <-.
  - by apply (testlib_code_balanced a g n l st v st').
Qed.

(** C2 on a nested use: the typical fixture outside, inside it the callee
    that integrates again, which itself nests a pair while it runs. *)
Lemma nested_pairs_compose_witness :
  (z_f1 outer_record, z_nargs1 outer_record, z_args1 outer_record)
    = (typical_addr, 2, DPtr 1 0)
  /\ (z_f0 inner_record, z_nargs0 inner_record, z_args0 inner_record)
     = (z_f1 outer_record, z_nargs1 outer_record, z_args1 outer_record)
  /\ active (restore_c_multivariate inner_record reentrant_active)
     = (typical_addr, 2, DPtr 1 0)
  /\ active (restore_c_multivariate outer_record typical_active)
     = active start
  /\ (forall r st st',
        run nested_code r st = Some st' -> active st' = active st).
Proof.
  apply (nested_pairs_compose nested_code start
           junk_record typical_addr 2 (DPtr 1 0) outer_evaluations
           junk_record reentrant_addr 0 DNull inner_region
           outer_evaluations
           outer_record typical_active typical_active
           inner_record reentrant_active reentrant_active typical_active).
  - exact nested_code_balanced.
  - reflexivity.
  - reflexivity.
  - reflexivity.
  - reflexivity.
  - reflexivity.
Defined.

(** C3, as stated, fails for [quad_init_func]: with a null function and
    a tuple of extra arguments it returns success, and the active
    Python function, which was the callable at 33, is now null. *)
Lemma quad_init_func_null_function :
  (quad_init_func junk_qrecord NULL 5%N python_active).1.1 = NPY_SUCCEED
  /\ quadpack_python_function python_active = 33%N
  /\ quadpack_python_function
       (quad_init_func junk_qrecord NULL 5%N python_active).2 = NULL
  /\ active_py (quad_init_func junk_qrecord NULL 5%N python_active).2
     <> active_py python_active.
Proof. repeat split. discriminate. Qed.

(** C3 (amended) on a state with an active Python callable: a null
    multivariate function, a ctypes object whose buffer holds a null
    pointer, and extra arguments that are a list. *)
Lemma install_null_function_fails_witness :
  ((init_c_multivariate junk_record NULL 2 (DPtr 1 0) python_active).1.1
     = NPY_FAIL
   /\ (init_c_multivariate junk_record NULL 2 (DPtr 1 0) python_active).2
      = python_active)
  /\ (exists qstore',
        init_ctypes_func junk_qrecord 7%N python_active
        = Some (NPY_FAIL, qstore', python_active))
  /\ active_py (quad_init_func junk_qrecord 7%N 6%N python_active).2
     = active_py python_active.
Proof.
  destruct (install_null_function_fails junk_record junk_qrecord 2
              (DPtr 1 0) 7%N 6%N python_active) as (Hz & Hc & Hq).
  split; [exact Hz|]. split; [apply Hc|apply Hq]; reflexivity.
Defined.

(** C4 on the typical fixture and on a Python callable with a tuple of
    extra arguments. *)
Lemma install_saves_then_activates_witness :
  ((z_f0 outer_record, z_nargs0 outer_record, z_args0 outer_record)
     = active start
   /\ active typical_active
      = (z_f1 outer_record, z_nargs1 outer_record, z_args1 outer_record)
   /\ active typical_active = (typical_addr, 2, DPtr 1 0))
  /\ ((global0 (quad_init_func junk_qrecord 34%N 5%N python_active).1.2,
       global1 (quad_init_func junk_qrecord 34%N 5%N python_active).1.2,
       jmp (quad_init_func junk_qrecord 34%N 5%N python_active).1.2)
      = active_py python_active
      /\ quadpack_python_function
           (quad_init_func junk_qrecord 34%N 5%N python_active).2 = 34%N
      /\ quadpack_extra_arguments
           (quad_init_func junk_qrecord 34%N 5%N python_active).2
         = arg (quad_init_func junk_qrecord 34%N 5%N python_active).1.2).
Proof.
  destruct (install_saves_then_activates junk_record junk_qrecord
              typical_addr 2 (DPtr 1 0) 34%N 5%N start) as [Hz _].
  destruct (install_saves_then_activates junk_record junk_qrecord
              typical_addr 2 (DPtr 1 0) 34%N 5%N python_active) as [_ Hq].
  split; [apply Hz|apply Hq]; reflexivity.
Defined.

(** C6 on [sin2] with no parameter array at all. *)
Lemma arity_zero_accepted_witness :
  (init_c_multivariate junk_record sin2_addr 0 DNull start).1.1 = NPY_SUCCEED
  /\ active (init_c_multivariate junk_record sin2_addr 0 DNull start).2
     = (sin2_addr, 0, DNull)
  /\ build_evalArray [0.5%R]
       (init_c_multivariate junk_record sin2_addr 0 DNull start).2
     = Some [0.5%R]
  /\ call_c_multivariate testlib_code [0.5%R]
       (init_c_multivariate junk_record sin2_addr 0 DNull start).2
     = (g ← testlib_code sin2_addr;
        g 0 [0.5%R]
          (init_c_multivariate junk_record sin2_addr 0 DNull start).2).
Proof.
  apply (arity_zero_accepted testlib_code junk_record sin2_addr DNull start
           0.5%R []).
  discriminate.
Defined.

Lemma by_reference_reads_pointee_only {D jmp_buf py : Type} (g : D -> D) :
  reads_pointee_only (@by_reference D jmp_buf py g).
Proof. intros l l' st Hhead. unfold by_reference. by rewrite Hhead. Qed.

(** C7 on the sine passed by reference: arities 2 and 0, and argument
    arrays that agree on their first element only. *)
Lemma funcwrapper_forwards_witness :
  globalbasef (funcwrapper_init (mkYStorage 82%N 83%N) 10%N start).2 = 10%N
  /\ funcwrapper scalar_examples 2 [0%R; 5%R; 6%R]
       (funcwrapper_init (mkYStorage 82%N 83%N) 10%N start).2
     = by_reference Rtrigo_def.sin [0%R; 5%R; 6%R]
         (funcwrapper_init (mkYStorage 82%N 83%N) 10%N start).2
  /\ funcwrapper scalar_examples 0 [0%R; 5%R; 6%R]
       (funcwrapper_init (mkYStorage 82%N 83%N) 10%N start).2
     = funcwrapper scalar_examples 2 [0%R; 5%R; 6%R]
         (funcwrapper_init (mkYStorage 82%N 83%N) 10%N start).2
  /\ funcwrapper scalar_examples 0 [0%R]
       (funcwrapper_init (mkYStorage 82%N 83%N) 10%N start).2
     = funcwrapper scalar_examples 2 [0%R; 5%R; 6%R]
         (funcwrapper_init (mkYStorage 82%N 83%N) 10%N start).2.
Proof.
  destruct (funcwrapper_forwards scalar_examples (mkYStorage 82%N 83%N)
              10%N (by_reference Rtrigo_def.sin) 2 0 [0%R; 5%R; 6%R] [0%R]
              start) as (H1 & H2 & H3 & H4); [discriminate|reflexivity|].
  split; [exact H1|]. split; [exact H2|]. split; [exact H3|].
  apply H4; [apply by_reference_reads_pointee_only|reflexivity].
Defined.

(** C7, as stated, fails for a wrapper function that reads past the
    double it is pointed at: with [second_double] active, two argument
    arrays with the same [args[0]] give different results, 5 and 6. *)
Lemma funcwrapper_reads_whole_array :
  globalbasef second_double_active = second_double_addr
  /\ scalar_examples_with_second second_double_addr = Some second_double
  /\ head [0%R; 5%R] = head [0%R; 6%R]
  /\ funcwrapper scalar_examples_with_second 1 [0%R; 5%R]
       second_double_active = Some (5%R, second_double_active)
  /\ funcwrapper scalar_examples_with_second 1 [0%R; 6%R]
       second_double_active = Some (6%R, second_double_active)
  /\ funcwrapper scalar_examples_with_second 1 [0%R; 5%R]
       second_double_active
     <> funcwrapper scalar_examples_with_second 1 [0%R; 6%R]
          second_double_active.
Proof.
  split; [reflexivity|]. split; [reflexivity|]. split; [reflexivity|].
  split; [reflexivity|]. split; [reflexivity|].
  change (Some (5%R, second_double_active)
          <> Some (6%R, second_double_active)).
  intros [= Heq]. lra.
Qed.

(** C10 on absent extra arguments (the new tuple is the object at 101), a
    tuple, and a list. *)
Lemma quad_init_func_extra_arguments_witness :
  ((quad_init_func junk_qrecord 34%N NULL python_active).1.1 = NPY_SUCCEED
   /\ quadpack_extra_arguments
        (quad_init_func junk_qrecord 34%N NULL python_active).2 = 101%N)
  /\ (quadpack_extra_arguments
        (quad_init_func junk_qrecord 34%N 5%N python_active).2 <> NULL
      /\ PyTuple_Check
           (quadpack_extra_arguments
              (quad_init_func junk_qrecord 34%N 5%N python_active).2)
           (pyrt (quad_init_func junk_qrecord 34%N 5%N python_active).2)
         = true)
  /\ ((quad_init_func junk_qrecord 34%N 6%N python_active).1.1 = NPY_FAIL
      /\ active_py (quad_init_func junk_qrecord 34%N 6%N python_active).2
         = active_py python_active).
Proof.
  destruct (quad_init_func_extra_arguments junk_qrecord 34%N NULL
              python_active) as (Hnew & _ & _).
  destruct (quad_init_func_extra_arguments junk_qrecord 34%N 5%N
              python_active) as (_ & Hok & _).
  destruct (quad_init_func_extra_arguments junk_qrecord 34%N 6%N
              python_active) as (_ & _ & Hbad).
  split; [apply Hnew; [reflexivity|discriminate]|].
  split; [apply Hok; reflexivity|].
  apply Hbad; [discriminate|reflexivity].
Defined.

Lemma typical_active_value :
  call_c_multivariate testlib_code [0.5%R] typical_active
  = Some ((cos (3 * 0.5 - 1 * sin 0.5) / PI)%R, typical_active).
Proof. reflexivity. Qed.

(** The value of the literal is not 1 and the cosine is not 0. *)
Lemma typical_value_differs :
  (cos (3 * 0.5 - 1 * sin 0.5) / PI <> cos (3 * 0.5 - 1 * sin 0.5))%R.
Proof.
  assert (0 < sin 0.5)%R as Hsin.
  { apply sin_gt_0; [lra|]. pose proof PI2_3_2. lra. }
  pose proof (SIN_bound 0.5) as [_ Hle].
  assert (0 < cos (3 * 0.5 - 1 * sin 0.5))%R as Hcos.
  { pose proof PI2_3_2. apply cos_gt_0; lra. }
  set (c := cos (3 * 0.5 - 1 * sin 0.5)) in *.
  intros Heq. unfold Rdiv in Heq.
  assert (c * / PI * PI = c * PI)%R as Hmul by (by rewrite Heq).
  unfold PI, real_ops in Hmul. rewrite Rmult_assoc, Rinv_l in Hmul by lra.
  nra.
Qed.

(** C8 (amended) at 0.5 on the parameters [3.0; 1.0], over the reals. *)
Lemma typical_scenario_witness :
  (init_c_multivariate junk_record typical_addr 2 (DPtr 1 0) start).1.1
    = NPY_SUCCEED
  /\ build_evalArray [0.5%R] typical_active = Some [0.5%R; 3%R; 1%R]
  /\ call_c_multivariate testlib_code [0.5%R] typical_active
     = Some ((cos (3 * 0.5 - 1 * sin 0.5) / PI)%R, typical_active).
Proof.
  exact (typical_scenario junk_record (DPtr 1 0) start 0.5%R [] 3%R 1%R
           (array_at_block [3%R; 1%R])).
Defined.

(** C8, as stated, fails: the value returned is not
    [cos(3.0*0.5 - 1.0*sin(0.5))]. *)
Lemma typical_scenario_not_cos :
  fst <$> call_c_multivariate testlib_code [0.5%R] typical_active
  <> Some (cos (3 * 0.5 - 1 * sin 0.5))%R.
Proof.
  rewrite typical_active_value. cbn. intros [= Heq].
  by apply typical_value_differs.
Qed.

(** * The further properties on concrete states *)

#[export] Instance interp_err_laws : PyErrLaws interp.
Proof. by split. Qed.

(** X2 on the typical fixture at 0.5: the array [0.5; 3.0; 1.0]. *)
Lemma build_evalArray_shape_witness :
  0 <= globalnargs typical_active < INT_MAX
  /\ Z.of_nat (length [0.5%R; 3%R; 1%R]) = globalnargs typical_active + 1
  /\ head [0.5%R; 3%R; 1%R] = head [0.5%R]
  /\ (forall i : nat,
        Z.of_nat i < globalnargs typical_active ->
        [0.5%R; 3%R; 1%R] !! S i
        = load (mem typical_active) (globalargs typical_active) (Z.of_nat i)
        /\ is_Some ([0.5%R; 3%R; 1%R] !! S i)).
Proof.
  exact (build_evalArray_shape [0.5%R] [0.5%R; 3%R; 1%R] typical_active
           eq_refl).
Defined.

(** X3 with [indefinite] active with arity 1 on the two-element buffer. *)
Lemma parameters_beyond_arity_ignored_witness :
  build_evalArray [0.5%R]
    (init_c_multivariate junk_record indefinite_addr 1 (DPtr 1 0) start).2
  = Some [0.5%R; 3%R]
  /\ call_c_multivariate testlib_code [0.5%R]
       (init_c_multivariate junk_record indefinite_addr 1 (DPtr 1 0) start).2
     = pure_callee indefinite 1 [0.5%R; 3%R]
         (init_c_multivariate junk_record indefinite_addr 1 (DPtr 1 0)
            start).2.
Proof.
  apply (parameters_beyond_arity_ignored testlib_code
           (init_c_multivariate junk_record indefinite_addr 1 (DPtr 1 0)
              start).2
           indefinite_addr (pure_callee indefinite) 1 (DPtr 1 0)
           [3%R] [1%R] 0.5%R []).
  - reflexivity.
  - discriminate.
  - reflexivity.
  - exact (array_at_block [3%R; 1%R]).
  - reflexivity.
  - reflexivity.
Defined.

(** X4: the buffer holds [3.0; 1.0] at the install and [7.0; 2.0] at the
    evaluation, which passes [0.5; 7.0; 2.0]. *)
Lemma install_keeps_pointer_witness :
  call_c_multivariate testlib_code [0.5%R]
    (set_mem {[1%N := [7%R; 2%R]]}
       (init_c_multivariate junk_record typical_addr 2 (DPtr 1 0) start).2)
  = pure_callee typical 2 [0.5%R; 7%R; 2%R]
      (set_mem {[1%N := [7%R; 2%R]]}
         (init_c_multivariate junk_record typical_addr 2 (DPtr 1 0) start).2).
Proof.
  apply (install_keeps_pointer testlib_code junk_record typical_addr
           (pure_callee typical) 2 (DPtr 1 0) start
           {[1%N := [7%R; 2%R]]} [7%R; 2%R] 0.5%R []).
  - discriminate.
  - reflexivity.
  - apply array_at_block.
  - reflexivity.
  - reflexivity.
Defined.

(** X5 with the arity -1. *)
Lemma arity_not_validated_witness :
  (init_c_multivariate junk_record sin2_addr (-1) (DPtr 1 0) start).1.1
    = NPY_SUCCEED
  /\ call_c_multivariate testlib_code [0.5%R]
       (init_c_multivariate junk_record sin2_addr (-1) (DPtr 1 0) start).2
     = None.
Proof.
  apply (arity_not_validated testlib_code junk_record sin2_addr (-1)
           (DPtr 1 0) start [0.5%R]).
  - discriminate.
  - left. reflexivity.
Defined.

(** X6 with arity 3 on the two-element buffer: [globalargs[2]] cannot be
    read. *)
Lemma missing_parameter_undefined_witness :
  build_evalArray [0.5%R] short_active = None
  /\ call_c_multivariate testlib_code [0.5%R] short_active = None.
Proof.
  apply (missing_parameter_undefined testlib_code short_active 2 [0.5%R]).
  - split; [discriminate|reflexivity].
  - reflexivity.
Defined.

(** X7 on the sine behind [funcwrapper] with two parameters. *)
Lemma funcwrapper_as_multivariate_witness :
  call_c_multivariate chained_code [0.5%R] chained_active
    = by_reference Rtrigo_def.sin [0.5%R; 3%R; 1%R] chained_active
  /\ call_c_multivariate chained_code [0.5%R] chained_active
     = by_reference Rtrigo_def.sin [0.5%R] chained_active.
Proof.
  destruct (funcwrapper_as_multivariate chained_code scalar_examples
              chained_active funcwrapper_addr 10%N
              (by_reference Rtrigo_def.sin) 2 (DPtr 1 0) [3%R; 1%R]
              0.5%R []) as [Hcall Hscalar].
  - reflexivity.
  - reflexivity.
  - discriminate.
  - reflexivity.
  - discriminate.
  - reflexivity.
  - apply array_at_block.
  - reflexivity.
  - reflexivity.
  - split; [exact Hcall|].
    apply Hscalar. apply by_reference_reads_pointee_only.
Defined.

(** X8 on the sine outside and the cosine inside, evaluated at 0. *)
Lemma wrapper_pairs_nest_witness :
  funcwrapper scalar_examples 0 [0%R]
    (funcwrapper_init junk_yrecord 10%N start).2
    = by_reference Rtrigo_def.sin [0%R]
        (funcwrapper_init junk_yrecord 10%N start).2
  /\ funcwrapper scalar_examples 0 [0%R]
       (funcwrapper_init junk_yrecord 11%N
          (funcwrapper_init junk_yrecord 10%N start).2).2
     = by_reference Rtrigo_def.cos [0%R]
         (funcwrapper_init junk_yrecord 11%N
            (funcwrapper_init junk_yrecord 10%N start).2).2
  /\ y_func0 (funcwrapper_init junk_yrecord 11%N
               (funcwrapper_init junk_yrecord 10%N start).2).1 = 10%N
  /\ funcwrapper_restore
       (funcwrapper_init junk_yrecord 11%N
          (funcwrapper_init junk_yrecord 10%N start).2).1
       (funcwrapper_init junk_yrecord 11%N
          (funcwrapper_init junk_yrecord 10%N start).2).2
     = (funcwrapper_init junk_yrecord 10%N start).2
  /\ funcwrapper_restore (funcwrapper_init junk_yrecord 10%N start).1
       (funcwrapper_init junk_yrecord 10%N start).2 = start.
Proof.
  apply (wrapper_pairs_nest scalar_examples junk_yrecord junk_yrecord
           10%N 11%N (by_reference Rtrigo_def.sin)
           (by_reference Rtrigo_def.cos) 0 [0%R] start).
  - discriminate.
  - discriminate.
  - reflexivity.
  - reflexivity.
Defined.

(** X9 on the ctypes object at 8, whose buffer holds the address 40, and
    on the address 99, where no object lives. *)
Lemma ctypes_round_trip_witness :
  (exists qstore' st',
     init_ctypes_func junk_qrecord 8%N python_active
     = Some (NPY_SUCCEED, qstore', st')
     /\ quadpack_ctypes_function st' = 40%N
     /\ global0 qstore' = quadpack_ctypes_function python_active
     /\ global1 qstore' = 40%N
     /\ restore_ctypes_func qstore' st' = python_active)
  /\ init_ctypes_func junk_qrecord 99%N python_active = None.
Proof.
  destruct (ctypes_round_trip junk_qrecord 8%N python_active) as [Hsome _].
  destruct (ctypes_round_trip junk_qrecord 99%N python_active) as [_ Hnone].
  split; [exact (Hsome 40%N eq_refl)|exact (Hnone eq_refl)].
Defined.

(** X12 with an error pending: [*ierr] becomes 80 and the error is
    cleared. *)
Lemma quad_restore_func_reports_error_witness :
  PyErr_Occurred (pyrt (quad_restore_func junk_qrecord (Some 0) error_pending).2)
    = NULL
  /\ (quad_restore_func junk_qrecord (Some 0) error_pending).1 = Some 80
  /\ (quad_restore_func junk_qrecord None error_pending).1 = None
  /\ pyrt (quad_restore_func junk_qrecord None error_pending).2
     = Py_XDECREF (arg junk_qrecord) (pyrt error_pending).
Proof.
  exact (quad_restore_func_reports_error junk_qrecord 0 error_pending).
Defined.



(** X15 on the tuple at 5, which has one reference, and on absent extra
    arguments. *)
Lemma quad_reference_balance_witness :
  ((quad_init_func junk_qrecord 34%N 5%N python_active).1.1 = NPY_SUCCEED
   /\ objects (pyrt (quad_init_func junk_qrecord 34%N 5%N python_active).2)
        !! 5%N
      = Some (mkPyobj 2 true NULL)
   /\ objects
        (pyrt (quad_restore_func
                 (quad_init_func junk_qrecord 34%N 5%N python_active).1.2
                 None
                 (quad_init_func junk_qrecord 34%N 5%N python_active).2).2)
      = objects (pyrt python_active))
  /\ ((quad_init_func junk_qrecord 34%N NULL python_active).1.1 = NPY_SUCCEED
      /\ quadpack_extra_arguments
           (quad_init_func junk_qrecord 34%N NULL python_active).2 = 101%N
      /\ objects
           (pyrt (quad_init_func junk_qrecord 34%N NULL python_active).2)
           !! 101%N
         = Some (mkPyobj 1 true NULL)
      /\ objects
           (pyrt (quad_restore_func
                    (quad_init_func junk_qrecord 34%N NULL python_active).1.2
                    None
                    (quad_init_func junk_qrecord 34%N NULL
                       python_active).2).2)
         = objects (pyrt python_active)).
Proof.
  destruct (quad_reference_balance junk_qrecord 34%N 5%N None python_active)
    as [Hsupplied _].
  destruct (quad_reference_balance junk_qrecord 34%N NULL None python_active)
    as [_ Habsent].
  split.
  - apply (Hsupplied (mkPyobj 1 true NULL));
      [discriminate|reflexivity|reflexivity|discriminate].
  - apply Habsent; [reflexivity|discriminate|reflexivity].
Defined.

(** X16 on the list at 6. *)
Lemma quad_init_func_rejects_non_tuple_witness :
  (quad_init_func junk_qrecord 34%N 6%N python_active).1.1 = NPY_FAIL
  /\ objects (pyrt (quad_init_func junk_qrecord 34%N 6%N python_active).2)
     = objects (pyrt python_active)
  /\ err_type (pyrt (quad_init_func junk_qrecord 34%N 6%N python_active).2)
     = quadpack_error python_active
  /\ err_message
       (pyrt (quad_init_func junk_qrecord 34%N 6%N python_active).2)
     = "Extra Arguments must be in a tuple"%string.
Proof.
  apply (quad_init_func_rejects_non_tuple junk_qrecord 34%N 6%N python_active
           (mkPyobj 1 false NULL));
    [discriminate|reflexivity|reflexivity|discriminate].
Defined.

(** X18 on the typical fixture and [sin2]: after the two restores the
    typical fixture is still active, and the first state had no active
    function. *)
Lemma out_of_order_restores_witness :
  restore_c_multivariate
    (init_c_multivariate junk_record sin2_addr 0 DNull
       (init_c_multivariate junk_record typical_addr 2 (DPtr 1 0) start).2).1.2
    (restore_c_multivariate
       (init_c_multivariate junk_record typical_addr 2 (DPtr 1 0) start).1.2
       (init_c_multivariate junk_record sin2_addr 0 DNull
          (init_c_multivariate junk_record typical_addr 2 (DPtr 1 0)
             start).2).2)
  = (init_c_multivariate junk_record typical_addr 2 (DPtr 1 0) start).2
  /\ active (init_c_multivariate junk_record typical_addr 2 (DPtr 1 0) start).2
     = (typical_addr, 2, DPtr 1 0).
Proof.
  apply (out_of_order_restores junk_record junk_record typical_addr 2
           (DPtr 1 0) sin2_addr 0 DNull start); discriminate.
Defined.
